(** * html-to-png: the exporter, viewport capture and download helpers

    A shallow embedding of [exporter.ts] (the export entry points,
    [captureViewport], [getViewportInfo], [downloadImage], [downloadBlob])
    over a small model of the page the code runs in.

    - JavaScript numbers are rationals [Q]; the integer layout metrics of an
      element ([clientWidth], [scrollWidth], ...) are [Z].
    - An optional field or argument ([x?: T], possibly [undefined]) is
      [option T]; [a ?? b] and a destructuring default are [default b a].
    - An element reference is a handle into the page's element store; a
      [null] reference is [None].
    - The inline style of an element is a finite map from property names to
      values.  The model tracks the value strings, which is what the code
      reads and writes.
    - The html-to-image functions, the canvas encoder and the 2d-context
      factory are external: they are parameters of the development.
    - A promise is its settled outcome: [inl e] when rejected or when the
      function throws, [inr v] when fulfilled.  A call runs to its end
      without other code of the page running in between.
    - The layout metrics of an element are fields of the element; a canvas
      made by the code holds the width and height the code assigns to it.
    - Every statement that acts on the page or calls an external capability
      is logged, with the stage of [captureViewport] it belongs to and the
      page it leaves. *)

From Stdlib Require Import ZArith QArith String List.
From stdpp Require Import base option gmap strings list.

Close Scope Q_scope.
Open Scope string_scope.
Open Scope list_scope.

(** ** Errors, options and normalized options *)

(** [new Error(msg)] is represented by its message. *)
Definition JsError := string.

Inductive Format := Png | Jpeg.

Definition Format_eqb (a b : Format) : bool :=
  match a, b with
  | Png, Png | Jpeg, Jpeg => true
  | _, _ => false
  end.

(** [ViewportOptions.region] *)
Record Region := mkRegion {
  r_x : Q;
  r_y : Q;
  r_width : Q;
  r_height : Q
}.

(** [ExportOptions] *)
Record ExportOptions {NodeFilter : Type} := mkExportOptions {
  eo_pixelRatio : option Q;
  eo_quality : option Q;
  eo_backgroundColor : option string;
  eo_filter : option NodeFilter;
  eo_width : option Q;
  eo_height : option Q;
  eo_skipFonts : option bool
}.
Arguments ExportOptions : clear implicits.
Arguments mkExportOptions {NodeFilter}.

(** [ViewportOptions extends ExportOptions] *)
Record ViewportOptions {NodeFilter : Type} := mkViewportOptions {
  vo_export : ExportOptions NodeFilter;
  vo_format : option Format;
  vo_hideScrollbars : option bool;
  vo_region : option Region
}.
Arguments ViewportOptions : clear implicits.
Arguments mkViewportOptions {NodeFilter}.

(** The object literal [toHtmlToImageOptions] returns, which
    [captureViewport] spreads and extends before calling [toCanvas]. *)
Record HtmlToImageOptions {NodeFilter : Type} := mkHtmlToImageOptions {
  h_pixelRatio : Q;
  h_quality : Q;
  h_backgroundColor : option string;
  h_filter : option NodeFilter;
  h_width : option Q;
  h_height : option Q;
  h_skipFonts : option bool
}.
Arguments HtmlToImageOptions : clear implicits.
Arguments mkHtmlToImageOptions {NodeFilter}.

Definition DEFAULT_PIXEL_RATIO : Q := 2%Q.
Definition DEFAULT_JPEG_QUALITY : Q := 0.95%Q.
Definition DEFAULT_JPEG_BACKGROUND : string := "#ffffff".

(** The empty object literal [{}] used as default argument. *)
Definition emptyExportOptions {NodeFilter} : ExportOptions NodeFilter :=
  mkExportOptions None None None None None None None.

Definition emptyViewportOptions {NodeFilter} : ViewportOptions NodeFilter :=
  mkViewportOptions emptyExportOptions None None None.

Definition toHtmlToImageOptions {NodeFilter}
    (options : option (ExportOptions NodeFilter)) (isJpeg : bool)
    : HtmlToImageOptions NodeFilter :=
  let options := default emptyExportOptions options in
  {| h_pixelRatio := default DEFAULT_PIXEL_RATIO (eo_pixelRatio options);
     h_quality := default DEFAULT_JPEG_QUALITY (eo_quality options);
     h_backgroundColor :=
       match eo_backgroundColor options with
       | Some c => Some c
       | None => if isJpeg then Some DEFAULT_JPEG_BACKGROUND else None
       end;
     h_filter := eo_filter options;
     h_width := eo_width options;
     h_height := eo_height options;
     h_skipFonts := eo_skipFonts options |}.

(** ** The page: elements, document nodes, canvases *)

Record Element := mkElement {
  style : gmap string string;
  classList : list string;
  clientWidth : Z;
  clientHeight : Z;
  scrollWidth : Z;
  scrollHeight : Z;
  scrollLeft : Q;
  scrollTop : Q
}.

Definition blankElement : Element :=
  mkElement ∅ [] 0 0 0 0 0%Q 0%Q.

#[global] Instance Element_inhabited : Inhabited Element :=
  populate blankElement.

(** [style.getPropertyValue(p)], also the getter of [style.overflow] and
    [style.scrollbarWidth]: the empty string when [p] is not set. *)
Definition getPropertyValue (e : Element) (p : string) : string :=
  default "" (style e !! p).

(** [style.setProperty(p, v)], also the setters [style.overflow = v] and
    [style.scrollbarWidth = v]: the empty string removes the declaration. *)
Definition setProperty (p v : string) (e : Element) : Element :=
  mkElement
    (if decide (v = "") then delete p (style e) else <[p:=v]> (style e))
    (classList e)
    (clientWidth e) (clientHeight e) (scrollWidth e) (scrollHeight e)
    (scrollLeft e) (scrollTop e).

Definition contains (cls : string) (l : list string) : bool :=
  existsb (String.eqb cls) l.

Definition without (cls : string) (l : list string) : list string :=
  List.filter (fun c => negb (String.eqb cls c)) l.

(** [classList.add(cls)]: a token already present is not added again. *)
Definition classListAdd (cls : string) (e : Element) : Element :=
  mkElement (style e)
    (if contains cls (classList e) then classList e else classList e ++ [cls])
    (clientWidth e) (clientHeight e) (scrollWidth e) (scrollHeight e)
    (scrollLeft e) (scrollTop e).

(** [classList.remove(cls)] *)
Definition classListRemove (cls : string) (e : Element) : Element :=
  mkElement (style e) (without cls (classList e))
    (clientWidth e) (clientHeight e) (scrollWidth e) (scrollHeight e)
    (scrollLeft e) (scrollTop e).

(** The nodes of the document that the code looks up, creates, appends or
    removes: style elements, the download link, and any other element that
    carries an id. *)
Inductive Node :=
| StyleNode (id textContent : string)
| AnchorNode (download href display : string)
| OtherNode (id : string).

Definition node_id (n : Node) : option string :=
  match n with
  | StyleNode i _ => Some i
  | AnchorNode _ _ _ => None
  | OtherNode i => Some i
  end.

Definition has_id (i : string) (n : Node) : bool :=
  match node_id n with
  | Some j => String.eqb i j
  | None => false
  end.

Definition Node_eqb (a b : Node) : bool :=
  match a, b with
  | StyleNode i t, StyleNode i' t' => String.eqb i i' && String.eqb t t'
  | AnchorNode d h s, AnchorNode d' h' s' =>
      String.eqb d d' && String.eqb h h' && String.eqb s s'
  | OtherNode i, OtherNode i' => String.eqb i i'
  | _, _ => false
  end.

Fixpoint removeFirst (n : Node) (l : list Node) : list Node :=
  match l with
  | [] => []
  | m :: l' => if Node_eqb n m then l' else m :: removeFirst n l'
  end.

(** [parent.removeChild(n)] on the list of children.  Nodes are compared by
    their content here; the child the code removes is the one it appended
    last, so the last occurrence is the one taken out. *)
Definition removeChild (n : Node) (l : list Node) : list Node :=
  rev (removeFirst n (rev l)).

Section Exporter.

(** The types the code only passes around. *)
Context {NodeFilter Blob Surface : Type}.

Local Abbreviation ExportOptions := (ExportOptions NodeFilter).
Local Abbreviation ViewportOptions := (ViewportOptions NodeFilter).
Local Abbreviation HtmlToImageOptions := (HtmlToImageOptions NodeFilter).

(** A canvas is either one that html-to-image rendered, or one made by
    [document.createElement('canvas')] with the size assigned to it and the
    [drawImage] calls made on its 2d context. *)
Inductive Canvas :=
| RenderedCanvas (s : Surface)
| CreatedCanvas (width height : Q) (ops : list DrawOp)
with DrawOp :=
| DrawImage (image : Canvas) (sx sy sWidth sHeight dx dy dWidth dHeight : Q).

Record Page := mkPage {
  elements : gmap nat Element;
  head : list Node;
  body : list Node;
  objectURLs : list (string * Blob);
  urlCounter : nat
}.

Definition element (c : nat) (p : Page) : Element := elements p !!! c.

Definition updateElement (c : nat) (f : Element -> Element) (p : Page) : Page :=
  mkPage (<[c := f (element c p)]> (elements p))
    (head p) (body p) (objectURLs p) (urlCounter p).

(** [document.getElementById(i)] *)
Definition getElementById (i : string) (p : Page) : option Node :=
  List.find (has_id i) (head p ++ body p).

Definition appendHead (n : Node) (p : Page) : Page :=
  mkPage (elements p) (head p ++ [n]) (body p) (objectURLs p) (urlCounter p).

Definition appendBody (n : Node) (p : Page) : Page :=
  mkPage (elements p) (head p) (body p ++ [n]) (objectURLs p) (urlCounter p).

Definition removeBody (n : Node) (p : Page) : Page :=
  mkPage (elements p) (head p) (removeChild n (body p))
    (objectURLs p) (urlCounter p).

(** ** External capabilities *)

Variable toPng : Page -> nat -> HtmlToImageOptions -> JsError + string.
Variable toJpeg : Page -> nat -> HtmlToImageOptions -> JsError + string.
Variable toBlob : Page -> nat -> HtmlToImageOptions -> JsError + option Blob.
Variable toCanvas : Page -> nat -> HtmlToImageOptions -> JsError + Canvas.

(** [canvas.getContext('2d')] returns a context or [null]. *)
Variable getContext2d : Canvas -> bool.

(** [canvas.toDataURL(type, quality)] *)
Variable toDataURL : Canvas -> string -> option Q -> JsError + string.

(** The unique part of an object URL. *)
Variable uuid : nat -> string.

(** [URL.createObjectURL(blob)]: a fresh [blob:] URL, registered. *)
Definition createObjectURL (b : Blob) (p : Page) : string * Page :=
  let url := String.append "blob:" (uuid (urlCounter p)) in
  (url, mkPage (elements p) (head p) (body p)
          (objectURLs p ++ [(url, b)]) (S (urlCounter p))).

(** [URL.revokeObjectURL(url)] *)
Definition revokeObjectURL (url : string) (p : Page) : Page :=
  mkPage (elements p) (head p) (body p)
    (List.filter (fun e => negb (String.eqb url (fst e))) (objectURLs p))
    (urlCounter p).

(** ** Effects: a state and error monad that records what was done *)

(** The stages of a capture, one for each block of [captureViewport]: the
    statements under [if (hideScrollbars)], the reads of the visible
    dimensions, the [toCanvas] call, the statements under [if (region)], the
    [toDataURL] call, the [finally] block.  [Idle] is for the other
    functions. *)
Inductive Stage :=
| Idle
| GuardAcquired
| Measuring
| Rasterizing
| Cropping
| Encoding
| Released.

(** What the code does to the page or asks of the outside. *)
Inductive Event :=
| EvSetStyle (el : nat) (prop value : string)
| EvClassAdd (el : nat) (cls : string)
| EvClassRemove (el : nat) (cls : string)
| EvAppendHead (n : Node)
| EvAppendBody (n : Node)
| EvClick (n : Node)
| EvRemoveBody (n : Node)
| EvReadClientSize (el : nat) (w h : Z)
| EvToPng (el : nat) (o : HtmlToImageOptions)
| EvToJpeg (el : nat) (o : HtmlToImageOptions)
| EvToBlob (el : nat) (o : HtmlToImageOptions)
| EvToCanvas (el : nat) (o : HtmlToImageOptions)
| EvCreateCanvas
| EvSetCanvasWidth (w : Q)
| EvSetCanvasHeight (h : Q)
| EvGetContext (ok : bool)
| EvDrawImage (op : DrawOp)
| EvToDataURL (c : Canvas) (type : string) (quality : option Q)
| EvCreateObjectURL (b : Blob) (url : string)
| EvRevokeObjectURL (url : string).

(** A log entry: the stage the code was in, what it did, and the page
    right after. *)
Record Entry := mkEntry {
  stage : Stage;
  event : Event;
  after : Page
}.

Record Outcome (A : Type) := mkOutcome {
  value : JsError + A;
  page : Page;
  trace : list Entry
}.
Arguments mkOutcome {A}.
Arguments value {A}.
Arguments page {A}.
Arguments trace {A}.

Definition M (A : Type) : Type := Stage -> Page -> Outcome A.

Definition ret {A} (a : A) : M A :=
  fun _ p => mkOutcome (inr a) p [].

Definition throw {A} (e : JsError) : M A :=
  fun _ p => mkOutcome (inl e) p [].

Definition bind {A B} (m : M A) (f : A -> M B) : M B :=
  fun g p =>
    let o := m g p in
    match value o with
    | inl e => mkOutcome (inl e) (page o) (trace o)
    | inr a =>
        let o' := f a g (page o) in
        mkOutcome (value o') (page o') (trace o ++ trace o')
    end.

(** [try { m } finally { fin }]: [fin] runs whatever [m] did; the outcome
    of [m] stands unless [fin] itself throws. *)
Definition try_finally {A} (m : M A) (fin : M unit) : M A :=
  fun g p =>
    let o := m g p in
    let o' := fin g (page o) in
    mkOutcome
      (match value o' with inl e => inl e | inr _ => value o end)
      (page o') (trace o ++ trace o').

(** Runs [m] with its log entries marked as stage [g]. *)
Definition in_stage {A} (g : Stage) (m : M A) : M A :=
  fun _ p => m g p.

(** An action on the page, logged. *)
Definition act (f : Page -> Page) (ev : Event) : M unit :=
  fun g p => let p' := f p in mkOutcome (inr tt) p' [mkEntry g ev p'].

(** A read of the page. *)
Definition get {A} (f : Page -> A) : M A :=
  fun _ p => mkOutcome (inr (f p)) p [].

(** A call of an external capability, logged; its failure is thrown. *)
Definition call {A} (f : Page -> JsError + A) (ev : Event) : M A :=
  fun g p => mkOutcome (f p) p [mkEntry g ev p].

Notation "'let*' x ':=' m 'in' k" := (bind m (fun x => k))
  (at level 10, x name, m at level 100, k at level 200).
Notation "m ;; k" := (bind m (fun _ => k))
  (at level 100, k at level 200, right associativity).

(** [if (b) { m }] *)
Definition when (b : bool) (m : M unit) : M unit :=
  if b then m else ret tt.

(** JavaScript truthiness of a string. *)
Definition truthy (s : string) : bool := negb (String.eqb s "").

(** ** exporter.ts *)

Definition exportToPng (element : option nat) (options : option ExportOptions)
    : M string :=
  match element with
  | None => throw "Element is required for PNG export"
  | Some el =>
      let htmlToImageOptions := toHtmlToImageOptions options false in
      call (fun p => toPng p el htmlToImageOptions)
           (EvToPng el htmlToImageOptions)
  end.

Definition exportToJpeg (element : option nat) (options : option ExportOptions)
    : M string :=
  match element with
  | None => throw "Element is required for JPEG export"
  | Some el =>
      let htmlToImageOptions := toHtmlToImageOptions options true in
      call (fun p => toJpeg p el htmlToImageOptions)
           (EvToJpeg el htmlToImageOptions)
  end.

Definition exportToBlob (element : option nat) (options : option ExportOptions)
    : M (option Blob) :=
  match element with
  | None => throw "Element is required for Blob export"
  | Some el =>
      let htmlToImageOptions := toHtmlToImageOptions options false in
      call (fun p => toBlob p el htmlToImageOptions)
           (EvToBlob el htmlToImageOptions)
  end.

Definition exportToCanvas (element : option nat)
    (options : option ExportOptions) : M Canvas :=
  match element with
  | None => throw "Element is required for Canvas export"
  | Some el =>
      let htmlToImageOptions := toHtmlToImageOptions options false in
      call (fun p => toCanvas p el htmlToImageOptions)
           (EvToCanvas el htmlToImageOptions)
  end.

Definition downloadImage (dataUrl filename : string) : M unit :=
  if negb (truthy dataUrl) then throw "Data URL is required for download"
  else if negb (truthy filename) then throw "Filename is required for download"
  else
    let link := AnchorNode filename dataUrl "none" in
    act (appendBody link) (EvAppendBody link) ;;
    act (fun p => p) (EvClick link) ;;
    act (removeBody link) (EvRemoveBody link).

Definition downloadBlob (blob : option Blob) (filename : string) : M unit :=
  match blob with
  | None => throw "Blob is required for download"
  | Some b =>
      if negb (truthy filename) then throw "Filename is required for download"
      else
        let* url :=
          (fun g p =>
             let r := createObjectURL b p in
             mkOutcome (inr (fst r)) (snd r)
               [mkEntry g (EvCreateObjectURL b (fst r)) (snd r)]) in
        downloadImage url filename ;;
        act (revokeObjectURL url) (EvRevokeObjectURL url)
  end.

(** *** captureViewport *)

Definition MARKER_CLASS : string := "__capture-hide-scrollbars".
Definition STYLE_ID : string := "__capture-viewport-styles".
Definition STYLE_TEXT : string := "
          .__capture-hide-scrollbars::-webkit-scrollbar {
            display: none !important;
          }
        ".

(** The statements under [if (hideScrollbars)]. *)
Definition hideScrollbarsOf (c : nat) : M unit :=
  act (updateElement c (setProperty "scrollbar-width" "none"))
      (EvSetStyle c "scrollbar-width" "none") ;;
  act (updateElement c (classListAdd MARKER_CLASS))
      (EvClassAdd c MARKER_CLASS) ;;
  let* found := get (getElementById STYLE_ID) in
  match found with
  | Some _ => ret tt
  | None =>
      let style := StyleNode STYLE_ID STYLE_TEXT in
      act (appendHead style) (EvAppendHead style)
  end.

(** The [finally] block. *)
Definition restoreStyles (c : nat)
    (originalOverflow originalScrollbarWidth originalWebkitScrollbar : string)
    : M unit :=
  act (updateElement c (setProperty "overflow" originalOverflow))
      (EvSetStyle c "overflow" originalOverflow) ;;
  act (updateElement c (setProperty "scrollbar-width" originalScrollbarWidth))
      (EvSetStyle c "scrollbar-width" originalScrollbarWidth) ;;
  when (truthy originalWebkitScrollbar)
    (act (updateElement c
            (setProperty "--webkit-scrollbar-display" originalWebkitScrollbar))
         (EvSetStyle c "--webkit-scrollbar-display" originalWebkitScrollbar)) ;;
  act (updateElement c (classListRemove MARKER_CLASS))
      (EvClassRemove c MARKER_CLASS).

(** [{ ...restOptions, pixelRatio }] *)
Definition withPixelRatio (pixelRatio : option Q) (o : ExportOptions)
    : ExportOptions :=
  mkExportOptions pixelRatio (eo_quality o) (eo_backgroundColor o)
    (eo_filter o) (eo_width o) (eo_height o) (eo_skipFonts o).

(** [{ ...toHtmlToImageOptions(...), width: visibleWidth, height: visibleHeight }]:
    a key written after the spread replaces the one spread in. *)
Definition withSize (visibleWidth visibleHeight : Z) (h : HtmlToImageOptions)
    : HtmlToImageOptions :=
  mkHtmlToImageOptions (h_pixelRatio h) (h_quality h) (h_backgroundColor h)
    (h_filter h) (Some (inject_Z visibleWidth)) (Some (inject_Z visibleHeight))
    (h_skipFonts h).

(** [canvas.toDataURL('image/jpeg', quality)] or [canvas.toDataURL('image/png')] *)
Definition exportCanvas (canvas : Canvas) (format : Format)
    (restOptions : ExportOptions) : M string :=
  if Format_eqb format Jpeg then
    let q := Some (default DEFAULT_JPEG_QUALITY (eo_quality restOptions)) in
    call (fun _ => toDataURL canvas "image/jpeg" q)
         (EvToDataURL canvas "image/jpeg" q)
  else
    call (fun _ => toDataURL canvas "image/png" None)
         (EvToDataURL canvas "image/png" None).

(** The object literal [scaledRegion]. *)
Definition scaledRegion (region : Region) (pixelRatio : Q) : Region :=
  mkRegion (r_x region * pixelRatio)%Q (r_y region * pixelRatio)%Q
           (r_width region * pixelRatio)%Q (r_height region * pixelRatio)%Q.

(** The statements under [if (region)] up to the [drawImage] call. *)
Definition cropTo (fullCanvas : Canvas) (region : Region) (pixelRatio : Q)
    : M Canvas :=
  act (fun p => p) EvCreateCanvas ;;
  let scaledRegion := scaledRegion region pixelRatio in
  act (fun p => p) (EvSetCanvasWidth (r_width scaledRegion)) ;;
  act (fun p => p) (EvSetCanvasHeight (r_height scaledRegion)) ;;
  let croppedCanvas :=
    CreatedCanvas (r_width scaledRegion) (r_height scaledRegion) [] in
  let ctx := getContext2d croppedCanvas in
  act (fun p => p) (EvGetContext ctx) ;;
  if negb ctx then throw "Failed to get canvas context"
  else
    let op :=
      DrawImage fullCanvas
        (r_x scaledRegion) (r_y scaledRegion)
        (r_width scaledRegion) (r_height scaledRegion)
        0%Q 0%Q
        (r_width scaledRegion) (r_height scaledRegion) in
    act (fun p => p) (EvDrawImage op) ;;
    ret (CreatedCanvas (r_width scaledRegion) (r_height scaledRegion) [op]).

(** The statements after [await toCanvas(...)]: the optional crop, then the
    export of the canvas as a data URL. *)
Definition cropAndExport (fullCanvas : Canvas) (format : Format)
    (region : option Region) (pixelRatio : Q) (restOptions : ExportOptions)
    : M string :=
  match region with
  | Some region =>
      let* croppedCanvas :=
        in_stage Cropping (cropTo fullCanvas region pixelRatio) in
      in_stage Encoding (exportCanvas croppedCanvas format restOptions)
  | None =>
      in_stage Encoding (exportCanvas fullCanvas format restOptions)
  end.

(** The [try] block. *)
Definition captureBody (c : nat) (format : Format) (hideScrollbars : bool)
    (region : option Region) (pixelRatio : Q) (restOptions : ExportOptions)
    : M string :=
  in_stage GuardAcquired (when hideScrollbars (hideScrollbarsOf c)) ;;
  let* visible :=
    in_stage Measuring
      (let* visibleWidth := get (fun p => clientWidth (element c p)) in
       let* visibleHeight := get (fun p => clientHeight (element c p)) in
       act (fun p => p) (EvReadClientSize c visibleWidth visibleHeight) ;;
       ret (visibleWidth, visibleHeight)) in
  let* fullCanvas :=
    in_stage Rasterizing
      (let o :=
         withSize (fst visible) (snd visible)
           (toHtmlToImageOptions
              (Some (withPixelRatio (Some pixelRatio) restOptions))
              (Format_eqb format Jpeg)) in
       call (fun p => toCanvas p c o) (EvToCanvas c o)) in
  cropAndExport fullCanvas format region pixelRatio restOptions.

Definition captureViewport (container : option nat)
    (options : option ViewportOptions) : M string :=
  match container with
  | None => throw "Container element is required for viewport capture"
  | Some c =>
      let options := default emptyViewportOptions options in
      let format := default Png (vo_format options) in
      let hideScrollbars := default true (vo_hideScrollbars options) in
      let region := vo_region options in
      let pixelRatio :=
        default DEFAULT_PIXEL_RATIO (eo_pixelRatio (vo_export options)) in
      let restOptions := withPixelRatio None (vo_export options) in
      let* originalOverflow :=
        get (fun p => getPropertyValue (element c p) "overflow") in
      let* originalScrollbarWidth :=
        get (fun p => getPropertyValue (element c p) "scrollbar-width") in
      let* originalWebkitScrollbar :=
        get (fun p =>
               getPropertyValue (element c p) "--webkit-scrollbar-display") in
      try_finally
        (captureBody c format hideScrollbars region pixelRatio restOptions)
        (in_stage Released
           (restoreStyles c originalOverflow originalScrollbarWidth
              originalWebkitScrollbar))
  end.

(** The object [getViewportInfo] returns. *)
Record ViewportInfo := mkViewportInfo {
  visibleWidth : Z;
  visibleHeight : Z;
  vi_scrollLeft : Q;
  vi_scrollTop : Q;
  vi_scrollWidth : Z;
  vi_scrollHeight : Z;
  isScrollable : bool;
  hasHorizontalScroll : bool;
  hasVerticalScroll : bool
}.

Definition getViewportInfo (container : option nat) : M ViewportInfo :=
  match container with
  | None => throw "Container element is required"
  | Some c =>
      let* e := get (element c) in
      let visibleWidth := clientWidth e in
      let visibleHeight := clientHeight e in
      let scrollWidth := scrollWidth e in
      let scrollHeight := scrollHeight e in
      ret (mkViewportInfo visibleWidth visibleHeight
             (scrollLeft e) (scrollTop e) scrollWidth scrollHeight
             ((scrollWidth >? visibleWidth)%Z || (scrollHeight >? visibleHeight)%Z)
             (scrollWidth >? visibleWidth)%Z
             (scrollHeight >? visibleHeight)%Z)
  end.

(** ** Invariants of a computation

    [keeps I m]: started on a page where [I] holds, [m] leaves a page where
    [I] holds, and [I] holds after every step it logs. *)

Definition keeps (I : Page -> Prop) {A} (m : M A) : Prop :=
  forall g p, I p ->
    I (page (m g p)) /\ Forall (fun en => I (after en)) (trace (m g p)).

(** *** What a capture may change on its container *)

(** [e] differs from [e0] at most in the inline [scrollbar-width] and in
    carrying the marker class. *)
Definition sameExceptSuppression (e0 e : Element) : Prop :=
  (forall q, q <> "scrollbar-width" ->
             getPropertyValue e q = getPropertyValue e0 q)
  /\ without MARKER_CLASS (classList e) = without MARKER_CLASS (classList e0)
  /\ clientWidth e = clientWidth e0 /\ clientHeight e = clientHeight e0
  /\ scrollWidth e = scrollWidth e0 /\ scrollHeight e = scrollHeight e0
  /\ scrollLeft e = scrollLeft e0 /\ scrollTop e = scrollTop e0.

(** The container [c] is as [e0] up to scrollbar suppression. *)
Definition framed (c : nat) (e0 : Element) (p : Page) : Prop :=
  sameExceptSuppression e0 (element c p).

(** ** Reading the log *)

(** The option records of the [toCanvas] calls in a log. *)
Definition rasterCalls (tr : list Entry) : list HtmlToImageOptions :=
  flat_map (fun en => match event en with
                      | EvToCanvas _ o => [o]
                      | _ => []
                      end) tr.

Definition stages (tr : list Entry) : list Stage := map stage tr.

Definition events (tr : list Entry) : list Event := map event tr.

Definition eventsAt (s : Stage) (tr : list Entry) : list Event :=
  flat_map (fun en => match stage en, s with
                      | Idle, Idle | GuardAcquired, GuardAcquired
                      | Measuring, Measuring | Rasterizing, Rasterizing
                      | Cropping, Cropping | Encoding, Encoding
                      | Released, Released => [event en]
                      | _, _ => []
                      end) tr.

(** ** The parts of a capture *)

(** [o] with the entries [t] logged before it. *)
Definition logged {A} (t : list Entry) (o : Outcome A) : Outcome A :=
  mkOutcome (value o) (page o) (t ++ trace o).

(** The page with the scrollbars of [c] hidden. *)
Definition hidden (c : nat) (p : Page) : Page :=
  updateElement c (classListAdd MARKER_CLASS)
    (updateElement c (setProperty "scrollbar-width" "none") p).

(** The arguments of the [toDataURL] call for a format. *)
Definition mimeType (format : Format) : string :=
  if Format_eqb format Jpeg then "image/jpeg" else "image/png".

Definition encoderQuality (format : Format) (restOptions : ExportOptions)
    : option Q :=
  if Format_eqb format Jpeg
  then Some (default DEFAULT_JPEG_QUALITY (eo_quality restOptions))
  else None.

(** The page on which the container is measured and rasterized: the one
    the scrollbar hiding leaves. *)
Definition guarded (c : nat) (hideScrollbars : bool) (p : Page) : Page :=
  page (when hideScrollbars (hideScrollbarsOf c) GuardAcquired p).

(** The options record of the [toCanvas] call. *)
Definition rasterOptions (c : nat) (format : Format) (pixelRatio : Q)
    (restOptions : ExportOptions) (p : Page) : HtmlToImageOptions :=
  withSize (clientWidth (element c p)) (clientHeight (element c p))
    (toHtmlToImageOptions
       (Some (withPixelRatio (Some pixelRatio) restOptions))
       (Format_eqb format Jpeg)).

(** The position of a stage in the order in which the code goes through
    them. *)
Definition rank (s : Stage) : nat :=
  match s with
  | Idle => 0
  | GuardAcquired => 1
  | Measuring => 2
  | Rasterizing => 3
  | Cropping => 4
  | Encoding => 5
  | Released => 6
  end.

(** The stages of a log never step back in the order [rk]: whatever is
    logged at a stage comes before everything logged at a later one. *)
Fixpoint nondecreasing (rk : Stage -> nat) (l : list Stage) : bool :=
  match l with
  | a :: (b :: _) as l' => (rk a <=? rk b)%nat && nondecreasing rk l'
  | _ => true
  end.

(** The order with the measurement before the scrollbar hiding. *)
Definition specRank (s : Stage) : nat :=
  match s with
  | Idle => 0
  | Measuring => 1
  | GuardAcquired => 2
  | Rasterizing => 3
  | Cropping => 4
  | Encoding => 5
  | Released => 6
  end.

(** Something is logged at stage [s]. *)
Definition occurs (s : Stage) (l : list Stage) : bool :=
  existsb (fun t => (rank t =? rank s)%nat) l.

(** The events of the [finally] block on a container that was [e0]. *)
Definition releaseEvents (c : nat) (e0 : Element) : list Event :=
  [EvSetStyle c "overflow" (getPropertyValue e0 "overflow");
   EvSetStyle c "scrollbar-width" (getPropertyValue e0 "scrollbar-width")]
  ++ (if truthy (getPropertyValue e0 "--webkit-scrollbar-display")
      then [EvSetStyle c "--webkit-scrollbar-display"
              (getPropertyValue e0 "--webkit-scrollbar-display")]
      else [])
  ++ [EvClassRemove c MARKER_CLASS].

(** The number of [classList.remove] calls among events. *)
Definition classRemovals (evs : list Event) : nat :=
  length (List.filter (fun ev => match ev with
                                 | EvClassRemove _ _ => true
                                 | _ => false
                                 end) evs).

(** The destructured options of a call of [captureViewport]. *)
Definition optionsOf (options : option ViewportOptions) : ViewportOptions :=
  default emptyViewportOptions options.

Definition formatOf (options : option ViewportOptions) : Format :=
  default Png (vo_format (optionsOf options)).

Definition hidesScrollbars (options : option ViewportOptions) : bool :=
  default true (vo_hideScrollbars (optionsOf options)).

Definition pixelRatioOf (options : option ViewportOptions) : Q :=
  default DEFAULT_PIXEL_RATIO (eo_pixelRatio (vo_export (optionsOf options))).

Definition restOptionsOf (options : option ViewportOptions) : ExportOptions :=
  withPixelRatio None (vo_export (optionsOf options)).

(** The outcome of the [toCanvas] call of a capture. *)
Definition rasterOutcome (c : nat) (options : option ViewportOptions)
    (p : Page) : JsError + Canvas :=
  let p1 := guarded c (hidesScrollbars options) p in
  toCanvas p1 c
    (rasterOptions c (formatOf options) (pixelRatioOf options)
       (restOptionsOf options) p1).

(** The canvas the crop creates, once sized, and once drawn on. *)
Definition blankCanvas (region : Region) (pixelRatio : Q) : Canvas :=
  let sr := scaledRegion region pixelRatio in
  CreatedCanvas (r_width sr) (r_height sr) [].

Definition cropDraw (fullCanvas : Canvas) (region : Region) (pixelRatio : Q)
    : DrawOp :=
  let sr := scaledRegion region pixelRatio in
  DrawImage fullCanvas (r_x sr) (r_y sr) (r_width sr) (r_height sr)
    0%Q 0%Q (r_width sr) (r_height sr).

Definition croppedCanvas (fullCanvas : Canvas) (region : Region)
    (pixelRatio : Q) : Canvas :=
  let sr := scaledRegion region pixelRatio in
  CreatedCanvas (r_width sr) (r_height sr)
    [cropDraw fullCanvas region pixelRatio].

(** The outcome of the [toDataURL] call of a capture on [canvas]. *)
Definition encodeOutcome (options : option ViewportOptions) (canvas : Canvas)
    : JsError + string :=
  toDataURL canvas (mimeType (formatOf options))
    (encoderQuality (formatOf options) (restOptionsOf options)).

(** The ways the rasterization, the crop or the encoding of a capture fail,
    with the error each raises. *)
Inductive CaptureFailure (c : nat) (options : option ViewportOptions)
    (p : Page) : JsError -> Prop :=
| RasterizationFails e :
    rasterOutcome c options p = inl e ->
    CaptureFailure c options p e
| CropFails fullCanvas region :
    rasterOutcome c options p = inr fullCanvas ->
    vo_region (optionsOf options) = Some region ->
    getContext2d (blankCanvas region (pixelRatioOf options)) = false ->
    CaptureFailure c options p "Failed to get canvas context"
| EncodeFullFails fullCanvas e :
    rasterOutcome c options p = inr fullCanvas ->
    vo_region (optionsOf options) = None ->
    encodeOutcome options fullCanvas = inl e ->
    CaptureFailure c options p e
| EncodeCroppedFails fullCanvas region e :
    rasterOutcome c options p = inr fullCanvas ->
    vo_region (optionsOf options) = Some region ->
    getContext2d (blankCanvas region (pixelRatioOf options)) = true ->
    encodeOutcome options
      (croppedCanvas fullCanvas region (pixelRatioOf options)) = inl e ->
    CaptureFailure c options p e.

(** The scrollbar-suppression state of [e'] is that of [e]. *)
Definition sameSuppressionState (e e' : Element) : Prop :=
  getPropertyValue e' "scrollbar-width" = getPropertyValue e "scrollbar-width"
  /\ getPropertyValue e' "--webkit-scrollbar-display"
     = getPropertyValue e "--webkit-scrollbar-display"
  /\ classList e' = classList e.

(** *** The library as a whole and the shared style element *)

(** A call of one of the exported functions. *)
Inductive LibCall :=
| CallExportToPng (element : option nat) (options : option ExportOptions)
| CallExportToJpeg (element : option nat) (options : option ExportOptions)
| CallExportToBlob (element : option nat) (options : option ExportOptions)
| CallExportToCanvas (element : option nat) (options : option ExportOptions)
| CallDownloadImage (dataUrl filename : string)
| CallDownloadBlob (blob : option Blob) (filename : string)
| CallCaptureViewport (container : option nat)
                      (options : option ViewportOptions)
| CallGetViewportInfo (container : option nat).

(** The page a call leaves. *)
Definition runCall (k : LibCall) (p : Page) : Page :=
  match k with
  | CallExportToPng el o => page (exportToPng el o Idle p)
  | CallExportToJpeg el o => page (exportToJpeg el o Idle p)
  | CallExportToBlob el o => page (exportToBlob el o Idle p)
  | CallExportToCanvas el o => page (exportToCanvas el o Idle p)
  | CallDownloadImage u f => page (downloadImage u f Idle p)
  | CallDownloadBlob b f => page (downloadBlob b f Idle p)
  | CallCaptureViewport c o => page (captureViewport c o Idle p)
  | CallGetViewportInfo c => page (getViewportInfo c Idle p)
  end.

Definition runCalls (ks : list LibCall) (p : Page) : Page :=
  fold_left (fun q k => runCall k q) ks p.

(** The nodes of the document that carry the id of the shared style. *)
Definition styleResources (p : Page) : list Node :=
  List.filter (has_id STYLE_ID) (head p ++ body p).

(** A capture of a container with [hideScrollbars] not [false]. *)
Definition hidingCapture (k : LibCall) : bool :=
  match k with
  | CallCaptureViewport (Some _) options => hidesScrollbars options
  | _ => false
  end.

(** The style element is put in when no node carries its id. *)
Definition ensured (l : list Node) : list Node :=
  match l with
  | [] => [StyleNode STYLE_ID STYLE_TEXT]
  | n :: l' => n :: l'
  end.


(** *** Sample inputs *)

(** A rasterizer that succeeds with the surface [s], and one that fails. *)
Definition sampleToCanvas (s : Surface)
    : Page -> nat -> HtmlToImageOptions -> JsError + Canvas :=
  fun _ _ _ => inr (RenderedCanvas s).

Definition failingToCanvas
    : Page -> nat -> HtmlToImageOptions -> JsError + Canvas :=
  fun _ _ _ => inl "SecurityError: tainted canvas".

Definition sampleGetContext2d : Canvas -> bool := fun _ => true.

Definition sampleToDataURL : Canvas -> string -> option Q -> JsError + string :=
  fun _ type _ => inr (String.append "data:" type).

Definition sampleUuid : nat -> string := fun _ => "3f2a".

(** A scrollable editor pane, 400 by 300 visible, and the same pane already
    carrying the marker class. *)
Definition samplePane : Element :=
  mkElement {[ "overflow" := "auto" ]} ["pane"] 400 300 1600 300 0%Q 0%Q.

Definition markedPane : Element :=
  mkElement {[ "overflow" := "auto" ]} ["pane"; "__capture-hide-scrollbars"]
    400 300 1600 300 0%Q 0%Q.

Definition pageOf (e : Element) : Page := mkPage {[ 0%nat := e ]} [] [] [] 0.


(** [{ pixelRatio: 2, region: { x: 100, y: 50, width: 400, height: 300 } }] *)
Definition regionAt2 : ViewportOptions :=
  mkViewportOptions
    (mkExportOptions (Some 2%Q) None None None None None None)
    None None (Some (mkRegion 100 50 400 300)).

(** A page where no 2d context can be had. *)
Definition noContext2d : Canvas -> bool := fun _ => false.


(** ** More ways to read the log and the page *)

(** The pages left by the entries logged at stage [s]. *)
Definition pagesAt (s : Stage) (tr : list Entry) : list Page :=
  flat_map (fun en => if (rank (stage en) =? rank s)%nat
                      then [after en] else []) tr.

(** The [drawImage] calls among events. *)
Definition drawCalls (evs : list Event) : nat :=
  length (List.filter (fun ev => match ev with
                                 | EvDrawImage _ => true
                                 | _ => false
                                 end) evs).

(** Apart from its elements and its head, [p] is as [p0]. *)
Definition restAs (p0 p : Page) : Prop :=
  body p = body p0 /\ objectURLs p = objectURLs p0
  /\ urlCounter p = urlCounter p0.

(** The element [c'] is in [p] what it is in [p0]. *)
Definition elementAs (c' : nat) (p0 p : Page) : Prop :=
  elements p !! c' = elements p0 !! c'.


(** ** Basic facts about the page model *)

Lemma getPropertyValue_setProperty_eq p v e :
  getPropertyValue (setProperty p v e) p = v.
Proof.
  unfold getPropertyValue, setProperty; simpl.
  destruct (decide (v = "")) as [->|Hv].
  - by rewrite lookup_delete_eq.
  - by rewrite lookup_insert_eq.
Qed.

Lemma getPropertyValue_setProperty_ne p q v e :
  p <> q -> getPropertyValue (setProperty p v e) q = getPropertyValue e q.
Proof.
  intros Hpq. unfold getPropertyValue, setProperty; simpl.
  destruct (decide (v = "")).
  - by rewrite lookup_delete_ne.
  - by rewrite lookup_insert_ne.
Qed.

(** Writing back the value a property has leaves every value as it was. *)
Lemma getPropertyValue_setProperty_same p q e :
  getPropertyValue (setProperty p (getPropertyValue e p) e) q
  = getPropertyValue e q.
Proof.
  destruct (decide (p = q)) as [->|Hpq].
  - apply getPropertyValue_setProperty_eq.
  - by apply getPropertyValue_setProperty_ne.
Qed.

Lemma contains_false_without cls l : contains cls l = false -> without cls l = l.
Proof.
  unfold contains, without. induction l as [|a l IH]; simpl; [done|].
  destruct (String.eqb cls a); simpl; [done|].
  intros H. by rewrite IH.
Qed.

Lemma without_app cls l k : without cls (l ++ k) = without cls l ++ without cls k.
Proof. unfold without. apply List.filter_app. Qed.

Lemma without_idem cls l : without cls (without cls l) = without cls l.
Proof.
  unfold without. induction l as [|a l IH]; simpl; [done|].
  destruct (String.eqb cls a) eqn:E; simpl; [done|].
  by rewrite E, IH.
Qed.

Lemma contains_without cls l : contains cls (without cls l) = false.
Proof.
  unfold contains, without. induction l as [|a l IH]; simpl; [done|].
  destruct (String.eqb cls a) eqn:E; simpl; [done|].
  by rewrite E, IH.
Qed.

(** Adding the class and removing it again is removing it. *)
Lemma without_classListAdd cls e :
  without cls (classList (classListAdd cls e)) = without cls (classList e).
Proof.
  unfold classListAdd; simpl.
  destruct (contains cls (classList e)); [done|].
  rewrite without_app. unfold without at 2; simpl.
  rewrite String.eqb_refl; simpl. apply app_nil_r.
Qed.

Lemma element_updateElement_eq c f (p : Page) :
  element c (updateElement c f p) = f (element c p).
Proof. unfold element, updateElement; simpl. apply lookup_total_insert_eq. Qed.

Lemma element_updateElement_ne c c' f (p : Page) :
  c <> c' -> element c' (updateElement c f p) = element c' p.
Proof.
  intros H. unfold element, updateElement; simpl.
  by apply lookup_total_insert_ne.
Qed.

Lemma Node_eqb_refl n : Node_eqb n n = true.
Proof. destruct n; simpl; by rewrite ?String.eqb_refl. Qed.

Lemma removeChild_last n l : removeChild n (l ++ [n]) = l.
Proof.
  unfold removeChild. rewrite rev_app_distr; simpl.
  rewrite Node_eqb_refl. apply rev_involutive.
Qed.

(** ** Rules for invariants *)

Lemma keeps_ret I {A} (a : A) : keeps I (ret a).
Proof. intros g p H. split; [exact H | constructor]. Qed.

Lemma keeps_throw I {A} e : keeps I (@throw A e).
Proof. intros g p H. split; [exact H | constructor]. Qed.

Lemma keeps_get I {A} (f : Page -> A) : keeps I (get f).
Proof. intros g p H. split; [exact H | constructor]. Qed.

Lemma keeps_call I {A} (f : Page -> JsError + A) ev : keeps I (call f ev).
Proof. intros g p H. split; [exact H | repeat constructor; exact H]. Qed.

Lemma keeps_act I f ev : (forall p, I p -> I (f p)) -> keeps I (act f ev).
Proof.
  intros Hf g p H. split; [by apply Hf | repeat constructor; by apply Hf].
Qed.

Lemma keeps_bind I {A B} (m : M A) (k : A -> M B) :
  keeps I m -> (forall a, keeps I (k a)) -> keeps I (bind m k).
Proof.
  intros Hm Hk g p H. unfold bind.
  destruct (Hm g p H) as [H1 T1].
  destruct (value (m g p)) as [e|a]; simpl; [done|].
  destruct (Hk a g _ H1) as [H2 T2].
  split; [done | by apply Forall_app].
Qed.

Lemma keeps_try_finally I {A} (m : M A) fin :
  keeps I m -> keeps I fin -> keeps I (try_finally m fin).
Proof.
  intros Hm Hf g p H. unfold try_finally; simpl.
  destruct (Hm g p H) as [H1 T1].
  destruct (Hf g _ H1) as [H2 T2].
  split; [done | by apply Forall_app].
Qed.

Lemma keeps_in_stage I {A} s (m : M A) : keeps I m -> keeps I (in_stage s m).
Proof. intros Hm g p H. apply (Hm s p H). Qed.

Lemma keeps_when I b m : keeps I m -> keeps I (when b m).
Proof. intros Hm. destruct b; [exact Hm | apply keeps_ret]. Qed.

Lemma keeps_exportCanvas I canvas format restOptions :
  keeps I (exportCanvas canvas format restOptions).
Proof.
  unfold exportCanvas. destruct (Format_eqb format Jpeg); apply keeps_call.
Qed.

Lemma keeps_cropTo I fullCanvas region pixelRatio :
  keeps I (cropTo fullCanvas region pixelRatio).
Proof.
  unfold cropTo.
  repeat (apply keeps_bind; [by apply keeps_act | intros _]).
  destruct (negb _); [apply keeps_throw|].
  apply keeps_bind; [by apply keeps_act | intros _; apply keeps_ret].
Qed.

(** Whatever holds across the scrollbar hiding holds across the [try] block:
    the other statements do not write to the page. *)
Lemma keeps_captureBody I c format hideScrollbars region pixelRatio restOptions :
  keeps I (hideScrollbarsOf c) ->
  keeps I (captureBody c format hideScrollbars region pixelRatio restOptions).
Proof.
  intros Hh. unfold captureBody.
  apply keeps_bind; [by apply keeps_in_stage, keeps_when | intros _].
  apply keeps_bind.
  { apply keeps_in_stage.
    repeat (apply keeps_bind; [apply keeps_get | intros ?]).
    apply keeps_bind; [by apply keeps_act | intros _; apply keeps_ret]. }
  intros visible.
  apply keeps_bind; [apply keeps_in_stage, keeps_call | intros fullCanvas].
  destruct region as [region|].
  - apply keeps_bind; [apply keeps_in_stage, keeps_cropTo | intros ?].
    apply keeps_in_stage, keeps_exportCanvas.
  - apply keeps_in_stage, keeps_exportCanvas.
Qed.

(** ** The frame of a capture *)

Lemma sameExceptSuppression_refl e : sameExceptSuppression e e.
Proof. unfold sameExceptSuppression; tauto. Qed.

Lemma same_set_scrollbarWidth e0 e v :
  sameExceptSuppression e0 e ->
  sameExceptSuppression e0 (setProperty "scrollbar-width" v e).
Proof.
  intros (Hs & Hrest). split; [|exact Hrest].
  intros q Hq. rewrite getPropertyValue_setProperty_ne; auto.
Qed.

(** Writing to a property the value the original has. *)
Lemma same_set_original e0 e prop :
  sameExceptSuppression e0 e ->
  sameExceptSuppression e0 (setProperty prop (getPropertyValue e0 prop) e).
Proof.
  intros (Hs & Hrest). split; [|exact Hrest].
  intros q Hq. destruct (decide (prop = q)) as [->|Hne].
  - apply getPropertyValue_setProperty_eq.
  - rewrite getPropertyValue_setProperty_ne; auto.
Qed.

Lemma same_classListAdd e0 e :
  sameExceptSuppression e0 e ->
  sameExceptSuppression e0 (classListAdd MARKER_CLASS e).
Proof.
  intros (Hs & Hc & Hrest). split; [exact Hs|]. split; [|exact Hrest].
  by rewrite without_classListAdd.
Qed.

Lemma same_classListRemove e0 e :
  sameExceptSuppression e0 e ->
  sameExceptSuppression e0 (classListRemove MARKER_CLASS e).
Proof.
  intros (Hs & Hc & Hrest). split; [exact Hs|]. split; [|exact Hrest].
  simpl. by rewrite without_idem.
Qed.

Lemma framed_update c e0 f p :
  (forall e, sameExceptSuppression e0 e -> sameExceptSuppression e0 (f e)) ->
  framed c e0 p -> framed c e0 (updateElement c f p).
Proof.
  intros Hf H. unfold framed. rewrite element_updateElement_eq. by apply Hf.
Qed.

Lemma keeps_framed_hideScrollbarsOf c e0 :
  keeps (framed c e0) (hideScrollbarsOf c).
Proof.
  unfold hideScrollbarsOf.
  apply keeps_bind.
  { apply keeps_act. intros p. apply framed_update.
    intros e. apply same_set_scrollbarWidth. }
  intros _. apply keeps_bind.
  { apply keeps_act. intros p. apply framed_update, same_classListAdd. }
  intros _. intros g p H. unfold bind, get; simpl.
  destruct (getElementById STYLE_ID p); simpl.
  - split; [exact H | constructor].
  - split; [exact H | constructor; [exact H | constructor]].
Qed.

Lemma keeps_framed_restoreStyles c e0 originalScrollbarWidth :
  keeps (framed c e0)
    (restoreStyles c (getPropertyValue e0 "overflow") originalScrollbarWidth
       (getPropertyValue e0 "--webkit-scrollbar-display")).
Proof.
  unfold restoreStyles.
  apply keeps_bind.
  { apply keeps_act. intros p. apply framed_update.
    intros e. apply same_set_original. }
  intros _. apply keeps_bind.
  { apply keeps_act. intros p. apply framed_update.
    intros e. apply same_set_scrollbarWidth. }
  intros _. apply keeps_bind.
  { apply keeps_when, keeps_act. intros p. apply framed_update.
    intros e. apply same_set_original. }
  intros _. apply keeps_act. intros p.
  apply framed_update, same_classListRemove.
Qed.

(** [captureViewport] on a container, with the reads of the original styles
    carried out. *)
Lemma captureViewport_unfold c options g p :
  captureViewport (Some c) options g p
  = let o := default emptyViewportOptions options in
    try_finally
      (captureBody c (default Png (vo_format o))
         (default true (vo_hideScrollbars o)) (vo_region o)
         (default DEFAULT_PIXEL_RATIO (eo_pixelRatio (vo_export o)))
         (withPixelRatio None (vo_export o)))
      (in_stage Released
         (restoreStyles c
            (getPropertyValue (element c p) "overflow")
            (getPropertyValue (element c p) "scrollbar-width")
            (getPropertyValue (element c p) "--webkit-scrollbar-display")))
      g p.
Proof. reflexivity. Qed.

Lemma captureViewport_framed c options g p :
  let r := captureViewport (Some c) options g p in
  framed c (element c p) (page r)
  /\ Forall (fun en => framed c (element c p) (after en)) (trace r).
Proof.
  rewrite captureViewport_unfold. cbv zeta.
  apply keeps_try_finally.
  - apply keeps_captureBody, keeps_framed_hideScrollbarsOf.
  - apply keeps_in_stage, keeps_framed_restoreStyles.
  - apply sameExceptSuppression_refl.
Qed.

(** What the [finally] block establishes. *)
Lemma restoreStyles_post c o1 o2 o3 g p :
  let p' := page (restoreStyles c o1 o2 o3 g p) in
  getPropertyValue (element c p') "scrollbar-width" = o2
  /\ classList (element c p')
     = without MARKER_CLASS (classList (element c p)).
Proof.
  unfold restoreStyles, when.
  destruct (truthy o3); cbn [bind act ret value page trace];
    rewrite !element_updateElement_eq; split; try reflexivity.
  - change (getPropertyValue
              (setProperty "--webkit-scrollbar-display" o3
                 (setProperty "scrollbar-width" o2
                    (setProperty "overflow" o1 (element c p))))
              "scrollbar-width" = o2).
    rewrite getPropertyValue_setProperty_ne by discriminate.
    apply getPropertyValue_setProperty_eq.
  - change (getPropertyValue
              (setProperty "scrollbar-width" o2
                 (setProperty "overflow" o1 (element c p)))
              "scrollbar-width" = o2).
    apply getPropertyValue_setProperty_eq.
Qed.

(** ** Running a computation step by step *)

Lemma bind_act {B} f ev (k : unit -> M B) g p :
  bind (act f ev) k g p = logged [mkEntry g ev (f p)] (k tt g (f p)).
Proof. reflexivity. Qed.

Lemma bind_get {A B} (f : Page -> A) (k : A -> M B) g p :
  bind (get f) k g p = logged [] (k (f p) g p).
Proof. reflexivity. Qed.

Lemma bind_ret {A B} (a : A) (k : A -> M B) g p :
  bind (ret a) k g p = logged [] (k a g p).
Proof. reflexivity. Qed.

Lemma bind_call {A B} (f : Page -> JsError + A) ev (k : A -> M B) g p :
  bind (call f ev) k g p
  = match f p with
    | inl e => mkOutcome (inl e) p [mkEntry g ev p]
    | inr a => logged [mkEntry g ev p] (k a g p)
    end.
Proof. unfold bind, call; simpl. by destruct (f p). Qed.

Lemma bind_bind {A B C} (m : M A) (k : A -> M B) (h : B -> M C) g p :
  bind (bind m k) h g p = bind m (fun a => bind (k a) h) g p.
Proof.
  unfold bind. destruct (value (m g p)); simpl; [done|].
  destruct (value (k a g (page (m g p)))); simpl; [done|].
  by rewrite app_assoc.
Qed.

Lemma bind_in_stage {A B} s (m : M A) (k : A -> M B) g p :
  bind (in_stage s m) k g p
  = match value (m s p) with
    | inl e => mkOutcome (inl e) (page (m s p)) (trace (m s p))
    | inr a => logged (trace (m s p)) (k a g (page (m s p)))
    end.
Proof. reflexivity. Qed.

Lemma act_run f ev g p :
  act f ev g p = mkOutcome (inr tt) (f p) [mkEntry g ev (f p)].
Proof. reflexivity. Qed.

Lemma call_run {A} (f : Page -> JsError + A) ev g p :
  call f ev g p = mkOutcome (f p) p [mkEntry g ev p].
Proof. reflexivity. Qed.

Lemma ret_run {A} (a : A) g p : ret a g p = mkOutcome (inr a) p [].
Proof. reflexivity. Qed.

Lemma throw_run {A} e g p : @throw A e g p = mkOutcome (inl e) p [].
Proof. reflexivity. Qed.

Ltac exec :=
  repeat first
    [ rewrite bind_bind | rewrite bind_act | rewrite bind_get
    | rewrite bind_ret | rewrite act_run | rewrite call_run
    | rewrite ret_run | rewrite throw_run ];
  cbn [logged value page trace app].

Lemma hideScrollbarsOf_run c g p :
  let p1 := updateElement c (setProperty "scrollbar-width" "none") p in
  let style := StyleNode STYLE_ID STYLE_TEXT in
  hideScrollbarsOf c g p
  = match getElementById STYLE_ID p with
    | Some _ =>
        mkOutcome (inr tt) (hidden c p)
          [mkEntry g (EvSetStyle c "scrollbar-width" "none") p1;
           mkEntry g (EvClassAdd c MARKER_CLASS) (hidden c p)]
    | None =>
        mkOutcome (inr tt) (appendHead style (hidden c p))
          [mkEntry g (EvSetStyle c "scrollbar-width" "none") p1;
           mkEntry g (EvClassAdd c MARKER_CLASS) (hidden c p);
           mkEntry g (EvAppendHead style) (appendHead style (hidden c p))]
    end.
Proof.
  cbv zeta. unfold hideScrollbarsOf. exec.
  change (getElementById STYLE_ID
            (updateElement c (classListAdd MARKER_CLASS)
               (updateElement c (setProperty "scrollbar-width" "none") p)))
    with (getElementById STYLE_ID p).
  by destruct (getElementById STYLE_ID p).
Qed.

Lemma restoreStyles_run c o1 o2 o3 g p :
  let p1 := updateElement c (setProperty "overflow" o1) p in
  let p2 := updateElement c (setProperty "scrollbar-width" o2) p1 in
  let p3 := updateElement c (setProperty "--webkit-scrollbar-display" o3) p2 in
  restoreStyles c o1 o2 o3 g p
  = if truthy o3 then
      mkOutcome (inr tt) (updateElement c (classListRemove MARKER_CLASS) p3)
        [mkEntry g (EvSetStyle c "overflow" o1) p1;
         mkEntry g (EvSetStyle c "scrollbar-width" o2) p2;
         mkEntry g (EvSetStyle c "--webkit-scrollbar-display" o3) p3;
         mkEntry g (EvClassRemove c MARKER_CLASS)
           (updateElement c (classListRemove MARKER_CLASS) p3)]
    else
      mkOutcome (inr tt) (updateElement c (classListRemove MARKER_CLASS) p2)
        [mkEntry g (EvSetStyle c "overflow" o1) p1;
         mkEntry g (EvSetStyle c "scrollbar-width" o2) p2;
         mkEntry g (EvClassRemove c MARKER_CLASS)
           (updateElement c (classListRemove MARKER_CLASS) p2)].
Proof.
  cbv zeta. unfold restoreStyles, when.
  destruct (truthy o3); exec; reflexivity.
Qed.

Lemma cropTo_run fullCanvas region pixelRatio g p :
  let sr := scaledRegion region pixelRatio in
  let blank := CreatedCanvas (r_width sr) (r_height sr) [] in
  let op := DrawImage fullCanvas (r_x sr) (r_y sr) (r_width sr) (r_height sr)
              0%Q 0%Q (r_width sr) (r_height sr) in
  let setup :=
    [mkEntry g EvCreateCanvas p;
     mkEntry g (EvSetCanvasWidth (r_width sr)) p;
     mkEntry g (EvSetCanvasHeight (r_height sr)) p;
     mkEntry g (EvGetContext (getContext2d blank)) p] in
  cropTo fullCanvas region pixelRatio g p
  = if getContext2d blank then
      mkOutcome (inr (CreatedCanvas (r_width sr) (r_height sr) [op])) p
        (setup ++ [mkEntry g (EvDrawImage op) p])
    else
      mkOutcome (inl "Failed to get canvas context") p setup.
Proof.
  cbv zeta. unfold cropTo. exec.
  destruct (getContext2d _); cbn [negb]; exec; reflexivity.
Qed.

Lemma exportCanvas_run canvas format restOptions g p :
  let ty := mimeType format in
  let q := encoderQuality format restOptions in
  exportCanvas canvas format restOptions g p
  = mkOutcome (toDataURL canvas ty q) p [mkEntry g (EvToDataURL canvas ty q) p].
Proof.
  cbv zeta. unfold exportCanvas, mimeType, encoderQuality.
  by destruct (Format_eqb format Jpeg).
Qed.

Lemma hideScrollbarsOf_value c g p : value (hideScrollbarsOf c g p) = inr tt.
Proof.
  rewrite hideScrollbarsOf_run. by destruct (getElementById STYLE_ID p).
Qed.

Lemma captureBody_run c format hideScrollbars region pixelRatio restOptions g p :
  let p1 := guarded c hideScrollbars p in
  let o := rasterOptions c format pixelRatio restOptions p1 in
  captureBody c format hideScrollbars region pixelRatio restOptions g p
  = logged
      (trace (when hideScrollbars (hideScrollbarsOf c) GuardAcquired p)
       ++ [mkEntry Measuring
             (EvReadClientSize c (clientWidth (element c p1))
                (clientHeight (element c p1))) p1;
           mkEntry Rasterizing (EvToCanvas c o) p1])
      (match toCanvas p1 c o with
       | inl e => mkOutcome (inl e) p1 []
       | inr fullCanvas =>
           cropAndExport fullCanvas format region pixelRatio restOptions g p1
       end).
Proof.
  cbv zeta. unfold captureBody, guarded, rasterOptions.
  rewrite bind_in_stage.
  assert (Hv : value (when hideScrollbars (hideScrollbarsOf c) GuardAcquired p)
               = inr tt).
  { destruct hideScrollbars; [apply hideScrollbarsOf_value | reflexivity]. }
  rewrite Hv.
  set (og := when hideScrollbars (hideScrollbarsOf c) GuardAcquired p).
  cbv beta. rewrite bind_in_stage. exec. cbv beta.
  rewrite bind_in_stage. exec.
  destruct (toCanvas _ _ _) as [e|fullCanvas]; cbn [value page trace logged].
  - unfold logged. cbn [value page trace fst snd app].
    by rewrite app_nil_r.
  - unfold logged. cbn [value page trace fst snd app].
    by rewrite <- app_assoc.
Qed.

Lemma cropAndExport_run fullCanvas format region pixelRatio restOptions g p :
  let ty := mimeType format in
  let q := encoderQuality format restOptions in
  cropAndExport fullCanvas format region pixelRatio restOptions g p
  = match region with
    | None =>
        mkOutcome (toDataURL fullCanvas ty q) p
          [mkEntry Encoding (EvToDataURL fullCanvas ty q) p]
    | Some region =>
        let sr := scaledRegion region pixelRatio in
        let blank := CreatedCanvas (r_width sr) (r_height sr) [] in
        let op := DrawImage fullCanvas (r_x sr) (r_y sr)
                    (r_width sr) (r_height sr) 0%Q 0%Q
                    (r_width sr) (r_height sr) in
        let croppedCanvas := CreatedCanvas (r_width sr) (r_height sr) [op] in
        let setup :=
          [mkEntry Cropping EvCreateCanvas p;
           mkEntry Cropping (EvSetCanvasWidth (r_width sr)) p;
           mkEntry Cropping (EvSetCanvasHeight (r_height sr)) p;
           mkEntry Cropping (EvGetContext (getContext2d blank)) p] in
        if getContext2d blank then
          mkOutcome (toDataURL croppedCanvas ty q) p
            (setup ++ [mkEntry Cropping (EvDrawImage op) p;
                       mkEntry Encoding (EvToDataURL croppedCanvas ty q) p])
        else
          mkOutcome (inl "Failed to get canvas context") p setup
    end.
Proof.
  cbv zeta. unfold cropAndExport. destruct region as [region|].
  - rewrite bind_in_stage, cropTo_run. cbv zeta.
    destruct (getContext2d _); cbn [value page trace]; [|reflexivity].
    unfold in_stage. rewrite exportCanvas_run. reflexivity.
  - unfold in_stage. by rewrite exportCanvas_run.
Qed.





(** The log of the scrollbar hiding, by cases. *)
Lemma guard_trace c hideScrollbars p :
  let style := StyleNode STYLE_ID STYLE_TEXT in
  let p1 := updateElement c (setProperty "scrollbar-width" "none") p in
  trace (when hideScrollbars (hideScrollbarsOf c) GuardAcquired p)
  = if hideScrollbars then
      [mkEntry GuardAcquired (EvSetStyle c "scrollbar-width" "none") p1;
       mkEntry GuardAcquired (EvClassAdd c MARKER_CLASS) (hidden c p)]
      ++ match getElementById STYLE_ID p with
         | Some _ => []
         | None => [mkEntry GuardAcquired (EvAppendHead style)
                      (appendHead style (hidden c p))]
         end
    else [].
Proof.
  cbv zeta. destruct hideScrollbars; [|reflexivity].
  unfold when. rewrite hideScrollbarsOf_run.
  by destruct (getElementById STYLE_ID p).
Qed.

(** Opens a call of [captureViewport] on a container into its cases. *)
Ltac open_capture :=
  rewrite captureViewport_unfold; cbv zeta;
  unfold try_finally, in_stage;
  rewrite captureBody_run; cbv zeta;
  rewrite restoreStyles_run; cbv zeta;
  rewrite guard_trace; cbv zeta;
  unfold logged; cbn [value page trace].

(** Splits on the flags and on the answers of the external capabilities. *)
Ltac capture_cases :=
  repeat match goal with
  | |- context [if default true ?x then _ else _] =>
      destruct (default true x) eqn:?
  | |- context [match getElementById ?i ?p with _ => _ end] =>
      destruct (getElementById i p) eqn:?
  | |- context [if truthy ?x then _ else _] => destruct (truthy x) eqn:?
  | |- context [toCanvas ?a ?b ?d] => destruct (toCanvas a b d) eqn:?
  | |- context [cropAndExport _ _ _ _ _ _ _] =>
      rewrite cropAndExport_run; cbv zeta
  | |- context [match vo_region ?o with _ => _ end] =>
      destruct (vo_region o) eqn:?
  | |- context [if getContext2d ?x then _ else _] =>
      destruct (getContext2d x) eqn:?
  end.

Lemma rasterCalls_app t1 t2 :
  rasterCalls (t1 ++ t2) = rasterCalls t1 ++ rasterCalls t2.
Proof. apply flat_map_app. Qed.

Lemma eventsAt_app s t1 t2 :
  eventsAt s (t1 ++ t2) = eventsAt s t1 ++ eventsAt s t2.
Proof. apply flat_map_app. Qed.

Lemma captureBody_framed c e0 format hideScrollbars region pixelRatio restOptions :
  keeps (framed c e0)
    (captureBody c format hideScrollbars region pixelRatio restOptions).
Proof. apply keeps_captureBody, keeps_framed_hideScrollbarsOf. Qed.

(** ** The claims about the capture *)

(** C1 (amended): on every exit path of [captureViewport], for every
    container and whatever its inline styles and classes were, the inline
    [scrollbar-width] and the [--webkit-scrollbar-display] property have
    after the call the values they had before it, and the class list is the
    one before the call with the marker class [__capture-hide-scrollbars]
    removed: the marker is absent after the call, and a container that did
    not carry it has its class list unchanged. *)
Theorem captureViewport_restores_suppression c options g p :
  let r := captureViewport (Some c) options g p in
  let e := element c p in
  let e' := element c (page r) in
  getPropertyValue e' "scrollbar-width" = getPropertyValue e "scrollbar-width"
  /\ getPropertyValue e' "--webkit-scrollbar-display"
     = getPropertyValue e "--webkit-scrollbar-display"
  /\ classList e' = without MARKER_CLASS (classList e)
  /\ contains MARKER_CLASS (classList e') = false
  /\ (contains MARKER_CLASS (classList e) = false -> sameSuppressionState e e').
Proof.
  cbv zeta.
  destruct (captureViewport_framed c options g p) as [[Hq _] _].
  rewrite captureViewport_unfold in *. cbv zeta in *.
  set (o := default emptyViewportOptions options) in *.
  unfold try_finally in *. cbn [page] in *. unfold in_stage in *.
  set (body := captureBody _ _ _ _ _ _).
  fold body in Hq.
  destruct (restoreStyles_post c
              (getPropertyValue (element c p) "overflow")
              (getPropertyValue (element c p) "scrollbar-width")
              (getPropertyValue (element c p) "--webkit-scrollbar-display")
              Released (page (body g p))) as [Hsw Hcl].
  assert (Hb : framed c (element c p) (page (body g p))).
  { apply captureBody_framed, sameExceptSuppression_refl. }
  destruct Hb as (_ & Hbc & _).
  assert (Hclass : classList
            (element c
               (page (restoreStyles c
                        (getPropertyValue (element c p) "overflow")
                        (getPropertyValue (element c p) "scrollbar-width")
                        (getPropertyValue (element c p)
                           "--webkit-scrollbar-display")
                        Released (page (body g p)))))
          = without MARKER_CLASS (classList (element c p))).
  { by rewrite Hcl, Hbc. }
  assert (Hweb := Hq "--webkit-scrollbar-display" ltac:(discriminate)).
  split; [exact Hsw|]. split; [exact Hweb|]. split; [exact Hclass|].
  split.
  - rewrite Hclass. apply contains_without.
  - intros Hno. split; [exact Hsw|]. split; [exact Hweb|].
    rewrite Hclass. by apply contains_false_without.
Qed.


(** C4 (amended): in every execution of [captureViewport] the stages come
    in the order: scrollbar hiding (guard acquisition), measurement of
    [clientWidth] and [clientHeight], rasterization, optional crop,
    encoding, restoration.  The measurement and the rasterization call
    always take place, and the scrollbars are hidden exactly when
    [hideScrollbars] is not [false]. *)
Theorem captureViewport_stage_order c options g p :
  let tr := trace (captureViewport (Some c) options g p) in
  nondecreasing rank (stages tr) = true
  /\ occurs Measuring (stages tr) = true
  /\ occurs Rasterizing (stages tr) = true
  /\ occurs GuardAcquired (stages tr)
     = default true (vo_hideScrollbars (default emptyViewportOptions options)).
Proof.
  cbv zeta. open_capture. capture_cases; repeat split; reflexivity.
Qed.

(** C2: when the rasterization ([toCanvas] rejects), the crop (no 2d
    context) or the encoding ([toDataURL] throws) of a capture fails, the
    call raises that very error, and the restoration has run exactly once,
    as the last thing the call did: the log ends with the events of the
    [finally] block, they are all the events of the release stage, and the
    marker class is removed once in the whole call. *)
Theorem captureViewport_failure_releases_once c options g p e :
  CaptureFailure c options p e ->
  let r := captureViewport (Some c) options g p in
  value r = inl e
  /\ eventsAt Released (trace r) = releaseEvents c (element c p)
  /\ classRemovals (events (trace r)) = 1%nat
  /\ exists t, events (trace r) = t ++ releaseEvents c (element c p).
Proof.
  intros Hfail. cbv zeta. unfold releaseEvents.
  open_capture.
  destruct Hfail as [e H | fullCanvas region H Hr Hc | fullCanvas e H Hr He
                    | fullCanvas region e H Hr Hc He];
    unfold rasterOutcome, encodeOutcome, blankCanvas, croppedCanvas, cropDraw,
      hidesScrollbars, formatOf, pixelRatioOf, restOptionsOf, optionsOf in *;
    cbv zeta in *; rewrite H; rewrite ?cropAndExport_run; cbv zeta;
    rewrite ?Hr; rewrite ?Hc; rewrite ?He;
    destruct (truthy _); cbn [value page trace];
    (split; [reflexivity|]);
    rewrite !eventsAt_app; unfold events; rewrite !map_app;
    (split; [by capture_cases
            | split; [by capture_cases | eexists; reflexivity]]).
Qed.



(** C8: option normalization gives [pixelRatio] the supplied value, or 2;
    [quality] the supplied value, or 0.95; [backgroundColor] the supplied
    value, or ['#ffffff'] on the JPEG path and [undefined] otherwise.  Every
    export entry point hands the normalized options to html-to-image:
    [exportToPng], [exportToBlob] and [exportToCanvas] on the non-JPEG path,
    [exportToJpeg] on the JPEG path, [captureViewport] on the path of its
    format. *)
Theorem option_normalization :
  (forall (options : ExportOptions) isJpeg,
     let h := toHtmlToImageOptions (Some options) isJpeg in
     h_pixelRatio h = default 2%Q (eo_pixelRatio options)
     /\ h_quality h = default 0.95%Q (eo_quality options)
     /\ h_backgroundColor h
        = match eo_backgroundColor options with
          | Some col => Some col
          | None => if isJpeg then Some "#ffffff" else None
          end)
  /\ (forall isJpeg,
        let h := @toHtmlToImageOptions NodeFilter None isJpeg in
        h_pixelRatio h = 2%Q /\ h_quality h = 0.95%Q
        /\ h_backgroundColor h = if isJpeg then Some "#ffffff" else None)
  /\ (forall el options g p,
        value (exportToPng (Some el) options g p)
        = toPng p el (toHtmlToImageOptions options false)
        /\ value (exportToJpeg (Some el) options g p)
           = toJpeg p el (toHtmlToImageOptions options true)
        /\ value (exportToBlob (Some el) options g p)
           = toBlob p el (toHtmlToImageOptions options false)
        /\ value (exportToCanvas (Some el) options g p)
           = toCanvas p el (toHtmlToImageOptions options false))
  /\ (forall c options g p,
        let o := default emptyViewportOptions options in
        let isJpeg := Format_eqb (default Png (vo_format o)) Jpeg in
        map (fun h => (h_pixelRatio h, h_quality h, h_backgroundColor h))
          (rasterCalls (trace (captureViewport (Some c) options g p)))
        = [(default 2%Q (eo_pixelRatio (vo_export o)),
            default 0.95%Q (eo_quality (vo_export o)),
            match eo_backgroundColor (vo_export o) with
            | Some col => Some col
            | None => if isJpeg then Some "#ffffff" else None
            end)]).
Proof.
  split; [|split; [|split]].
  - intros options isJpeg. cbv zeta. repeat split.
  - intros isJpeg. cbv zeta. repeat split.
  - intros el options g p. repeat split.
  - intros c options g p. cbv zeta. open_capture.
    rewrite !rasterCalls_app, !map_app.
    capture_cases; reflexivity.
Qed.

(** C7: for a container that is not [null], [getViewportInfo] returns the
    container's metrics with [hasHorizontalScroll] equal to
    [scrollWidth > visibleWidth], [hasVerticalScroll] equal to
    [scrollHeight > visibleHeight] and [isScrollable] their disjunction, and
    leaves the page as it was; a container with [clientWidth = 800],
    [clientHeight = 600], [scrollWidth = 1600], [scrollHeight = 600] gives
    [{800, 600, 1600, 600, isScrollable: true, hasHorizontalScroll: true,
    hasVerticalScroll: false}]. *)
Theorem getViewportInfo_flags :
  (forall c g p,
     exists info,
       getViewportInfo (Some c) g p = mkOutcome (inr info) p []
       /\ visibleWidth info = clientWidth (element c p)
       /\ visibleHeight info = clientHeight (element c p)
       /\ vi_scrollWidth info = scrollWidth (element c p)
       /\ vi_scrollHeight info = scrollHeight (element c p)
       /\ vi_scrollLeft info = scrollLeft (element c p)
       /\ vi_scrollTop info = scrollTop (element c p)
       /\ hasHorizontalScroll info
          = (vi_scrollWidth info >? visibleWidth info)%Z
       /\ hasVerticalScroll info
          = (vi_scrollHeight info >? visibleHeight info)%Z
       /\ isScrollable info
          = hasHorizontalScroll info || hasVerticalScroll info)
  /\ (forall g,
        value (getViewportInfo (Some 0%nat) g
                 (mkPage {[ 0%nat := mkElement ∅ [] 800 600 1600 600 0%Q 0%Q ]}
                    [] [] [] 0))
        = inr (mkViewportInfo 800 600 0%Q 0%Q 1600 600 true true false)).
Proof.
  split.
  - intros c g p. eexists. split; [reflexivity|]. repeat split.
  - intros g. reflexivity.
Qed.

(** *** The shared style element and the download helpers *)

Lemma find_none_filter {A} (f : A -> bool) l :
  List.find f l = None -> List.filter f l = [].
Proof.
  induction l as [|a l IH]; simpl; [done|].
  destruct (f a); [discriminate | exact IH].
Qed.

Lemma find_some_filter {A} (f : A -> bool) l a :
  List.find f l = Some a -> List.filter f l <> [].
Proof.
  induction l as [|b l IH]; simpl; [discriminate|].
  destruct (f b); [discriminate | exact IH].
Qed.

Lemma captureBody_page c format hideScrollbars region pixelRatio restOptions g p :
  page (captureBody c format hideScrollbars region pixelRatio restOptions g p)
  = guarded c hideScrollbars p.
Proof.
  rewrite captureBody_run. cbv zeta. unfold logged. cbn [page].
  destruct (toCanvas _ _ _); [reflexivity|].
  rewrite cropAndExport_run. cbv zeta.
  destruct region; [destruct (getContext2d _)|]; reflexivity.
Qed.

Lemma restoreStyles_document c o1 o2 o3 g p :
  head (page (restoreStyles c o1 o2 o3 g p)) = head p
  /\ body (page (restoreStyles c o1 o2 o3 g p)) = body p.
Proof.
  rewrite restoreStyles_run. cbv zeta. by destruct (truthy o3).
Qed.

Lemma guarded_styleResources c hideScrollbars p :
  styleResources (guarded c hideScrollbars p)
  = if hideScrollbars then ensured (styleResources p) else styleResources p.
Proof.
  unfold guarded. destruct hideScrollbars; [|reflexivity].
  unfold when. rewrite hideScrollbarsOf_run. cbv zeta.
  unfold getElementById, styleResources.
  destruct (List.find _ _) as [n|] eqn:Hfind; cbn [page].
  - apply find_some_filter in Hfind.
    change (head (hidden c p)) with (head p).
    change (body (hidden c p)) with (body p).
    destruct (List.filter _ _); [done | reflexivity].
  - apply find_none_filter in Hfind.
    change (head (appendHead (StyleNode STYLE_ID STYLE_TEXT) (hidden c p)))
      with (head p ++ [StyleNode STYLE_ID STYLE_TEXT]).
    change (body (appendHead (StyleNode STYLE_ID STYLE_TEXT) (hidden c p)))
      with (body p).
    rewrite Hfind.
    rewrite List.filter_app in Hfind.
    apply app_eq_nil in Hfind as [Hh Hb].
    rewrite !List.filter_app, Hh, Hb. reflexivity.
Qed.

Lemma captureViewport_styleResources c options g p :
  styleResources (page (captureViewport (Some c) options g p))
  = if hidesScrollbars options
    then ensured (styleResources p) else styleResources p.
Proof.
  rewrite captureViewport_unfold. cbv zeta.
  unfold try_finally, in_stage. cbn [page].
  rewrite captureBody_page.
  rewrite <- (guarded_styleResources c (hidesScrollbars options) p).
  unfold styleResources, hidesScrollbars, optionsOf.
  by destruct (restoreStyles_document c
                 (getPropertyValue (element c p) "overflow")
                 (getPropertyValue (element c p) "scrollbar-width")
                 (getPropertyValue (element c p) "--webkit-scrollbar-display")
                 Released
                 (guarded c (default true
                    (vo_hideScrollbars (default emptyViewportOptions options)))
                    p)) as [-> ->].
Qed.

Lemma downloadImage_document dataUrl filename g p :
  head (page (downloadImage dataUrl filename g p)) = head p
  /\ body (page (downloadImage dataUrl filename g p)) = body p
  /\ objectURLs (page (downloadImage dataUrl filename g p)) = objectURLs p.
Proof.
  unfold downloadImage.
  destruct (negb (truthy dataUrl)); [done|].
  destruct (negb (truthy filename)); [done|].
  exec. cbn [head body objectURLs removeBody appendBody].
  by rewrite removeChild_last.
Qed.

Lemma downloadBlob_run b filename g p :
  truthy filename = true ->
  let url := String.append "blob:" (uuid (urlCounter p)) in
  let link := AnchorNode filename url "none" in
  let p1 := snd (createObjectURL b p) in
  let p2 := appendBody link p1 in
  let p3 := removeBody link p2 in
  downloadBlob (Some b) filename g p
  = mkOutcome (inr tt) (revokeObjectURL url p3)
      [mkEntry g (EvCreateObjectURL b url) p1;
       mkEntry g (EvAppendBody link) p2;
       mkEntry g (EvClick link) p2;
       mkEntry g (EvRemoveBody link) p3;
       mkEntry g (EvRevokeObjectURL url) (revokeObjectURL url p3)].
Proof.
  intros Ht. cbv zeta. unfold downloadBlob. rewrite Ht. cbn [negb].
  unfold bind at 1. cbn [value page trace fst snd createObjectURL].
  unfold downloadImage. cbn [truthy String.append String.eqb negb].
  fold (truthy filename). rewrite Ht. cbn [negb]. exec. reflexivity.
Qed.

Lemma runCall_styleResources k p :
  styleResources (runCall k p)
  = if hidingCapture k then ensured (styleResources p) else styleResources p.
Proof.
  destruct k as [el o|el o|el o|el o|u f|b f|c o|c]; cbn [runCall hidingCapture].
  - by destruct el.
  - by destruct el.
  - by destruct el.
  - by destruct el.
  - unfold styleResources.
    by destruct (downloadImage_document u f Idle p) as (-> & -> & _).
  - destruct b as [b|]; [|done].
    destruct (truthy f) eqn:Ht.
    + rewrite downloadBlob_run by exact Ht. cbv zeta. cbn [page].
      unfold styleResources.
      cbn [head body revokeObjectURL removeBody appendBody createObjectURL snd].
      by rewrite removeChild_last.
    + unfold downloadBlob. by rewrite Ht.
  - destruct c as [c|]; [|done]. apply captureViewport_styleResources.
  - by destruct c.
Qed.

Lemma ensured_idem l : ensured (ensured l) = ensured l.
Proof. by destruct l. Qed.

(** C6: the style element [__capture-viewport-styles] is injected at most
    once and never removed.  Over any sequence of calls of the library, the
    nodes carrying that id are those the document had; except that, when it
    had none and the sequence holds a capture of a container with
    [hideScrollbars] not [false], they are exactly the one style element
    the library injects. *)
Theorem shared_style_injected_once ks p :
  styleResources (runCalls ks p)
  = if existsb hidingCapture ks
    then match styleResources p with
         | [] => [StyleNode STYLE_ID STYLE_TEXT]
         | n :: l => n :: l
         end
    else styleResources p.
Proof.
  change (styleResources (runCalls ks p)
          = if existsb hidingCapture ks
            then ensured (styleResources p) else styleResources p).
  revert p. induction ks as [|k ks IH]; intros p; [reflexivity|].
  change (runCalls (k :: ks) p) with (runCalls ks (runCall k p)).
  cbn [existsb].
  rewrite IH, runCall_styleResources.
  destruct (hidingCapture k), (existsb hidingCapture ks); cbn [orb];
    by rewrite ?ensured_idem.
Qed.

Lemma revoked_absent url (l : list (string * Blob)) :
  ~ In url
      (map fst (List.filter (fun e => negb (String.eqb url (fst e))) l)).
Proof.
  intros H. apply in_map_iff in H as ([u b] & Hu & Hin).
  apply List.filter_In in Hin as [_ Hneq]. simpl in *. subst u.
  by rewrite String.eqb_refl in Hneq.
Qed.

(** C10: for every blob and every filename that is not empty,
    [downloadBlob] returns normally; it creates one object URL for the blob,
    which is not empty, downloads it through a link it adds to and removes
    from the body, and revokes that same URL last, so that the URL is not
    registered when the call returns. *)
Theorem downloadBlob_revokes_url b filename g p :
  filename <> "" ->
  let url := String.append "blob:" (uuid (urlCounter p)) in
  let link := AnchorNode filename url "none" in
  let r := downloadBlob (Some b) filename g p in
  value r = inr tt
  /\ url <> ""
  /\ events (trace r)
     = [EvCreateObjectURL b url; EvAppendBody link; EvClick link;
        EvRemoveBody link; EvRevokeObjectURL url]
  /\ ~ In url (map fst (objectURLs (page r)))
  /\ objectURLs (page r)
     = List.filter (fun e => negb (String.eqb url (fst e))) (objectURLs p)
  /\ head (page r) = head p
  /\ body (page r) = body p.
Proof.
  intros Hf. cbv zeta.
  assert (Ht : truthy filename = true).
  { unfold truthy. by apply negb_true_iff, String.eqb_neq. }
  rewrite downloadBlob_run by exact Ht. cbv zeta.
  cbn [value page trace events map event].
  cbn [objectURLs head body revokeObjectURL removeBody appendBody
       createObjectURL snd].
  assert (Hobj :
    List.filter
      (fun e => negb (String.eqb (String.append "blob:" (uuid (urlCounter p)))
                        (fst e)))
      (objectURLs p ++ [(String.append "blob:" (uuid (urlCounter p)), b)])
    = List.filter
        (fun e => negb (String.eqb (String.append "blob:" (uuid (urlCounter p)))
                          (fst e)))
        (objectURLs p)).
  { rewrite List.filter_app. cbn [List.filter fst].
    rewrite String.eqb_refl. cbn [negb]. apply app_nil_r. }
  rewrite Hobj.
  split; [reflexivity|]. split; [discriminate|]. split; [reflexivity|].
  split; [apply revoked_absent|]. split; [reflexivity|].
  split; [reflexivity|]. apply removeChild_last.
Qed.

(** ** Further properties of the exporter *)

(** X1: each function that takes an element rejects [null] with its own
    message before doing anything: nothing is logged, no external function
    is called, the page is as it was. *)
Theorem null_target_rejected options voptions g p :
  exportToPng None options g p
  = mkOutcome (inl "Element is required for PNG export") p []
  /\ exportToJpeg None options g p
     = mkOutcome (inl "Element is required for JPEG export") p []
  /\ exportToBlob None options g p
     = mkOutcome (inl "Element is required for Blob export") p []
  /\ exportToCanvas None options g p
     = mkOutcome (inl "Element is required for Canvas export") p []
  /\ captureViewport None voptions g p
     = mkOutcome (inl "Container element is required for viewport capture")
         p []
  /\ getViewportInfo None g p
     = mkOutcome (inl "Container element is required") p [].
Proof. repeat split. Qed.

(** X2: the download helpers check their arguments before acting.
    [downloadImage] rejects an empty data URL first, whatever the filename,
    then an empty filename; [downloadBlob] rejects a [null] blob first,
    whatever the filename, then an empty filename.  In each case nothing is
    logged: no link is made and no object URL is created. *)
Theorem download_preconditions :
  (forall filename g p,
     downloadImage "" filename g p
     = mkOutcome (inl "Data URL is required for download") p [])
  /\ (forall dataUrl g p,
        dataUrl <> "" ->
        downloadImage dataUrl "" g p
        = mkOutcome (inl "Filename is required for download") p [])
  /\ (forall filename g p,
        downloadBlob None filename g p
        = mkOutcome (inl "Blob is required for download") p [])
  /\ (forall b g p,
        downloadBlob (Some b) "" g p
        = mkOutcome (inl "Filename is required for download") p []).
Proof.
  split; [|split; [|split]]; try reflexivity.
  intros dataUrl g p Hd. unfold downloadImage.
  assert (Ht : truthy dataUrl = true).
  { unfold truthy. by apply negb_true_iff, String.eqb_neq. }
  by rewrite Ht.
Qed.

Lemma page_eta (p : Page) :
  mkPage (elements p) (head p) (body p) (objectURLs p) (urlCounter p) = p.
Proof. by destruct p. Qed.

Lemma truthy_nonempty s : s <> "" -> truthy s = true.
Proof. intros H. unfold truthy. by apply negb_true_iff, String.eqb_neq. Qed.

Lemma downloadImage_run dataUrl filename g p :
  truthy dataUrl = true -> truthy filename = true ->
  let link := AnchorNode filename dataUrl "none" in
  downloadImage dataUrl filename g p
  = mkOutcome (inr tt) (removeBody link (appendBody link p))
      [mkEntry g (EvAppendBody link) (appendBody link p);
       mkEntry g (EvClick link) (appendBody link p);
       mkEntry g (EvRemoveBody link) (removeBody link (appendBody link p))].
Proof.
  intros Hd Hf. cbv zeta. unfold downloadImage. rewrite Hd, Hf. cbn [negb].
  exec. reflexivity.
Qed.

Lemma removeBody_appendBody link (p : Page) :
  removeBody link (appendBody link p) = p.
Proof.
  unfold removeBody, appendBody. cbn [elements head body objectURLs urlCounter].
  rewrite removeChild_last. apply page_eta.
Qed.

(** X3: with a data URL and a filename that are not empty, [downloadImage]
    returns normally and leaves the page exactly as it found it: the link,
    with [download = filename], [href = dataUrl] and [display: none], is the
    last child of the body when it is clicked, and is removed again. *)
Theorem downloadImage_leaves_page dataUrl filename g p :
  dataUrl <> "" -> filename <> "" ->
  let link := AnchorNode filename dataUrl "none" in
  let r := downloadImage dataUrl filename g p in
  value r = inr tt
  /\ page r = p
  /\ events (trace r) = [EvAppendBody link; EvClick link; EvRemoveBody link]
  /\ map (fun en => body (after en)) (trace r)
     = [body p ++ [link]; body p ++ [link]; body p].
Proof.
  intros Hd Hf. cbv zeta.
  rewrite downloadImage_run by by apply truthy_nonempty.
  cbv zeta. rewrite removeBody_appendBody.
  repeat split.
Qed.


(** X5: on every path of a capture, successful or not, the [finally] block
    runs exactly once and last: the log ends with its events, they are all
    the events of the release stage, and the marker class is removed once. *)
Theorem captureViewport_releases_once c options g p :
  let tr := trace (captureViewport (Some c) options g p) in
  eventsAt Released tr = releaseEvents c (element c p)
  /\ classRemovals (events tr) = 1%nat
  /\ exists t, events tr = t ++ releaseEvents c (element c p).
Proof.
  cbv zeta. unfold releaseEvents. open_capture.
  rewrite !eventsAt_app. unfold events. rewrite !map_app.
  destruct (truthy _); cbn [value page trace];
    (split; [by capture_cases
            | split; [by capture_cases | eexists; reflexivity]]).
Qed.

(** X6: without a region, when the rasterization succeeds, no canvas is
    made and the rendered canvas itself is encoded; as PNG (the default)
    with type ['image/png'] and no quality argument, whatever [quality] the
    options carry; as JPEG with type ['image/jpeg'] and the quality of the
    options, or 0.95.  The call returns what the encoder gives. *)
Theorem captureViewport_encodes_full_canvas c options fullCanvas g p :
  vo_region (optionsOf options) = None ->
  rasterOutcome c options p = inr fullCanvas ->
  let r := captureViewport (Some c) options g p in
  let type := match formatOf options with
              | Png => "image/png"
              | Jpeg => "image/jpeg"
              end in
  let quality :=
    match formatOf options with
    | Png => None
    | Jpeg => Some (default 0.95%Q (eo_quality (vo_export (optionsOf options))))
    end in
  eventsAt Cropping (trace r) = []
  /\ eventsAt Encoding (trace r) = [EvToDataURL fullCanvas type quality]
  /\ value r = toDataURL fullCanvas type quality.
Proof.
  intros Hr H.
  assert (Hty : mimeType (formatOf options)
                = match formatOf options with
                  | Png => "image/png" | Jpeg => "image/jpeg" end).
  { unfold mimeType. by destruct (formatOf options). }
  assert (Hq : encoderQuality (formatOf options) (restOptionsOf options)
               = match formatOf options with
                 | Png => None
                 | Jpeg => Some (default 0.95%Q
                                   (eo_quality (vo_export (optionsOf options))))
                 end).
  { unfold encoderQuality. by destruct (formatOf options). }
  cbv zeta. rewrite <- Hty, <- Hq. clear Hty Hq.
  unfold rasterOutcome, hidesScrollbars, formatOf, pixelRatioOf,
    restOptionsOf, optionsOf in *.
  cbv zeta in *.
  open_capture. rewrite H, cropAndExport_run. cbv zeta. rewrite Hr.
  destruct (truthy _); cbn [value page trace];
    rewrite !eventsAt_app;
    (split; [by capture_cases | split; [by capture_cases | reflexivity]]).
Qed.

(** X7: when [toCanvas] rejects, the capture goes straight to the
    restoration: no canvas is made, nothing is drawn and nothing is
    encoded. *)
Theorem rasterization_failure_skips_the_rest c options e g p :
  rasterOutcome c options p = inl e ->
  let tr := trace (captureViewport (Some c) options g p) in
  eventsAt Cropping tr = []
  /\ eventsAt Encoding tr = []
  /\ drawCalls (events tr) = 0%nat.
Proof.
  intros H. cbv zeta.
  unfold rasterOutcome, hidesScrollbars, formatOf, pixelRatioOf,
    restOptionsOf, optionsOf in *.
  cbv zeta in *.
  open_capture. rewrite H.
  rewrite !eventsAt_app. unfold events. rewrite !map_app.
  destruct (truthy _); cbn [value page trace];
    (split; [by capture_cases | split; by capture_cases]).
Qed.

(** X8: when no 2d context is had for the crop, the canvas was made and
    sized but nothing is drawn on it and nothing is encoded; the call
    raises ['Failed to get canvas context']. *)
Theorem context_failure_skips_the_rest c options fullCanvas region g p :
  let pixelRatio := pixelRatioOf options in
  let sw := (r_width region * pixelRatio)%Q in
  let sh := (r_height region * pixelRatio)%Q in
  rasterOutcome c options p = inr fullCanvas ->
  vo_region (optionsOf options) = Some region ->
  getContext2d (CreatedCanvas sw sh []) = false ->
  let r := captureViewport (Some c) options g p in
  value r = inl "Failed to get canvas context"
  /\ eventsAt Cropping (trace r)
     = [EvCreateCanvas; EvSetCanvasWidth sw; EvSetCanvasHeight sh;
        EvGetContext false]
  /\ eventsAt Encoding (trace r) = []
  /\ drawCalls (events (trace r)) = 0%nat.
Proof.
  cbv zeta. intros H Hr Hc.
  unfold rasterOutcome, hidesScrollbars, formatOf, pixelRatioOf,
    restOptionsOf, optionsOf in *.
  cbv zeta in *.
  open_capture. rewrite H, cropAndExport_run. cbv zeta.
  rewrite Hr. unfold scaledRegion. cbn [r_x r_y r_width r_height].
  rewrite Hc.
  rewrite !eventsAt_app. unfold events. rewrite !map_app.
  destruct (truthy _); cbn [value page trace];
    (split; [reflexivity
            | split; [by capture_cases
                     | split; by capture_cases]]).
Qed.

(** X9: the options are forwarded.  The four export functions hand the
    caller's [filter], [width], [height] and [skipFonts] to html-to-image
    unchanged; [captureViewport] hands over the caller's [filter] and
    [skipFonts] unchanged. *)
Theorem options_forwarded :
  (forall (options : ExportOptions) isJpeg,
     let h := toHtmlToImageOptions (Some options) isJpeg in
     h_filter h = eo_filter options /\ h_width h = eo_width options
     /\ h_height h = eo_height options
     /\ h_skipFonts h = eo_skipFonts options)
  /\ (forall el (options : ExportOptions) g p,
        events (trace (exportToPng (Some el) (Some options) g p))
        = [EvToPng el (toHtmlToImageOptions (Some options) false)]
        /\ events (trace (exportToJpeg (Some el) (Some options) g p))
           = [EvToJpeg el (toHtmlToImageOptions (Some options) true)]
        /\ events (trace (exportToBlob (Some el) (Some options) g p))
           = [EvToBlob el (toHtmlToImageOptions (Some options) false)]
        /\ events (trace (exportToCanvas (Some el) (Some options) g p))
           = [EvToCanvas el (toHtmlToImageOptions (Some options) false)])
  /\ (forall c options g p,
        map (fun h => (h_filter h, h_skipFonts h))
          (rasterCalls (trace (captureViewport (Some c) options g p)))
        = [(eo_filter (vo_export (optionsOf options)),
            eo_skipFonts (vo_export (optionsOf options)))]).
Proof.
  split; [|split].
  - intros options isJpeg. cbv zeta. repeat split.
  - intros el options g p. repeat split.
  - intros c options g p. unfold optionsOf. open_capture.
    rewrite !rasterCalls_app, !map_app.
    capture_cases; reflexivity.
Qed.

(** *** What holds across a capture *)

Lemma keeps_captureBody_when I c format hideScrollbars region pixelRatio
    restOptions :
  keeps I (when hideScrollbars (hideScrollbarsOf c)) ->
  keeps I (captureBody c format hideScrollbars region pixelRatio restOptions).
Proof.
  intros Hh. unfold captureBody.
  apply keeps_bind; [by apply keeps_in_stage | intros _].
  apply keeps_bind.
  { apply keeps_in_stage.
    repeat (apply keeps_bind; [apply keeps_get | intros ?]).
    apply keeps_bind; [by apply keeps_act | intros _; apply keeps_ret]. }
  intros visible.
  apply keeps_bind; [apply keeps_in_stage, keeps_call | intros fullCanvas].
  unfold cropAndExport. destruct region as [region|].
  - apply keeps_bind; [apply keeps_in_stage, keeps_cropTo | intros ?].
    apply keeps_in_stage, keeps_exportCanvas.
  - apply keeps_in_stage, keeps_exportCanvas.
Qed.

Lemma keeps_hideScrollbarsOf_any I c :
  (forall f q, I q -> I (updateElement c f q)) ->
  (forall n q, I q -> I (appendHead n q)) ->
  keeps I (hideScrollbarsOf c).
Proof.
  intros Hu Ha. unfold hideScrollbarsOf.
  apply keeps_bind; [apply keeps_act; intros q; apply Hu | intros _].
  apply keeps_bind; [apply keeps_act; intros q; apply Hu | intros _].
  intros g p H. unfold bind, get; simpl.
  destruct (getElementById STYLE_ID p); simpl.
  - split; [exact H | constructor].
  - split; [by apply Ha | constructor; [by apply Ha | constructor]].
Qed.

Lemma keeps_restoreStyles_any I c o1 o2 o3 :
  (forall f q, I q -> I (updateElement c f q)) ->
  keeps I (restoreStyles c o1 o2 o3).
Proof.
  intros Hu. unfold restoreStyles.
  apply keeps_bind; [apply keeps_act; intros q; apply Hu | intros _].
  apply keeps_bind; [apply keeps_act; intros q; apply Hu | intros _].
  apply keeps_bind;
    [apply keeps_when, keeps_act; intros q; apply Hu | intros _].
  apply keeps_act; intros q; apply Hu.
Qed.

(** A property of the page that no write to the container and no addition
    to the head disturbs holds throughout a capture. *)
Lemma captureViewport_keeps I c options g p :
  (forall f q, I q -> I (updateElement c f q)) ->
  (forall n q, I q -> I (appendHead n q)) ->
  I p ->
  I (page (captureViewport (Some c) options g p))
  /\ Forall (fun en => I (after en))
       (trace (captureViewport (Some c) options g p)).
Proof.
  intros Hu Ha. rewrite captureViewport_unfold. cbv zeta.
  apply keeps_try_finally.
  - apply keeps_captureBody_when, keeps_when.
    by apply keeps_hideScrollbarsOf_any.
  - by apply keeps_in_stage, keeps_restoreStyles_any.
Qed.

Lemma elementAs_element c' (p0 p : Page) :
  elementAs c' p0 p -> element c' p = element c' p0.
Proof.
  unfold elementAs, element. intros H.
  by rewrite !lookup_total_alt, H.
Qed.

(** X10: a capture of the container [c] concerns [c] alone.  After every
    step and on return, every other element of the page is what it was, and
    so are the body of the document and the registry of object URLs. *)
Theorem captureViewport_frame c c' options g p :
  c' <> c ->
  let r := captureViewport (Some c) options g p in
  Forall (fun en => element c' (after en) = element c' p
                    /\ body (after en) = body p
                    /\ objectURLs (after en) = objectURLs p)
         (trace r)
  /\ element c' (page r) = element c' p
  /\ body (page r) = body p
  /\ objectURLs (page r) = objectURLs p.
Proof.
  intros Hne. cbv zeta.
  destruct (captureViewport_keeps
              (fun q => elementAs c' p q /\ restAs p q) c options g p)
    as [[He (Hb & Ho & _)] Ht].
  - intros f q [He Hr]. split; [|exact Hr].
    unfold elementAs, updateElement in *. cbn [elements].
    by rewrite lookup_insert_ne.
  - intros n q [He Hr]. by split.
  - by split.
  - split; [|split; [by apply elementAs_element | by split]].
    eapply Forall_impl; [exact Ht|].
    intros en [He' (Hb' & Ho' & _)].
    split; [by apply elementAs_element | by split].
Qed.

Lemma contains_classListAdd cls e :
  contains cls (classList (classListAdd cls e)) = true.
Proof.
  unfold classListAdd; simpl.
  destruct (contains cls (classList e)) eqn:E; [exact E|].
  unfold contains. rewrite existsb_app. simpl.
  rewrite String.eqb_refl. by rewrite orb_true_r.
Qed.

Lemma guarded_true_element c p :
  element c (guarded c true p)
  = classListAdd MARKER_CLASS
      (setProperty "scrollbar-width" "none" (element c p)).
Proof.
  unfold guarded, when. rewrite hideScrollbarsOf_run. cbv zeta.
  destruct (getElementById STYLE_ID p); cbn [page].
  - unfold hidden. by rewrite !element_updateElement_eq.
  - change (element c (appendHead (StyleNode STYLE_ID STYLE_TEXT) (hidden c p)))
      with (element c (hidden c p)).
    unfold hidden. by rewrite !element_updateElement_eq.
Qed.

Lemma guarded_true_style c p :
  exists n, getElementById STYLE_ID (guarded c true p) = Some n.
Proof.
  unfold guarded, when. rewrite hideScrollbarsOf_run. cbv zeta.
  destruct (getElementById STYLE_ID p) as [n|] eqn:Hp; cbn [page].
  - exists n. exact Hp.
  - unfold getElementById.
    destruct (List.find _ _) as [n|] eqn:Hf; [by exists n|].
    exfalso.
    assert (Hin : In (StyleNode STYLE_ID STYLE_TEXT)
                    (head (appendHead (StyleNode STYLE_ID STYLE_TEXT)
                             (hidden c p))
                     ++ body (appendHead (StyleNode STYLE_ID STYLE_TEXT)
                                (hidden c p)))).
    { apply in_or_app. left. cbn [head appendHead].
      apply in_or_app. right. by left. }
    apply (List.find_none _ _ Hf) in Hin. discriminate Hin.
Qed.

(** X11: when the scrollbars are to be hidden, they are hidden while the
    container is measured and rasterized: on the page html-to-image is
    given, the container has the inline [scrollbar-width: none] and the
    marker class, and the document holds an element with the id of the
    shared style. *)
Theorem rasterization_sees_hidden_scrollbars c options g p :
  hidesScrollbars options = true ->
  let r := captureViewport (Some c) options g p in
  exists p1,
    pagesAt Measuring (trace r) = [p1]
    /\ pagesAt Rasterizing (trace r) = [p1]
    /\ getPropertyValue (element c p1) "scrollbar-width" = "none"
    /\ contains MARKER_CLASS (classList (element c p1)) = true
    /\ exists n, getElementById STYLE_ID p1 = Some n.
Proof.
  intros H. cbv zeta. exists (guarded c true p).
  split; [|split; [|split; [|split]]].
  - unfold hidesScrollbars, optionsOf in H. open_capture. rewrite H.
    unfold pagesAt. rewrite !flat_map_app.
    capture_cases; reflexivity.
  - unfold hidesScrollbars, optionsOf in H. open_capture. rewrite H.
    unfold pagesAt. rewrite !flat_map_app.
    capture_cases; reflexivity.
  - rewrite guarded_true_element.
    change (getPropertyValue
              (setProperty "scrollbar-width" "none" (element c p))
              "scrollbar-width" = "none").
    apply getPropertyValue_setProperty_eq.
  - rewrite guarded_true_element. apply contains_classListAdd.
  - apply guarded_true_style.
Qed.




(** X13: the head of the document after a capture.  The style element is
    appended, as last child of the head, exactly when the scrollbars are to
    be hidden and no element of the document, of whatever kind and in head
    or body, carries the id [__capture-viewport-styles]; in every other
    case the head is unchanged. *)
Theorem captureViewport_head c options g p :
  head (page (captureViewport (Some c) options g p))
  = if hidesScrollbars options then
      match getElementById STYLE_ID p with
      | Some _ => head p
      | None => head p ++ [StyleNode STYLE_ID STYLE_TEXT]
      end
    else head p.
Proof.
  rewrite captureViewport_unfold. cbv zeta.
  unfold try_finally, in_stage. cbn [page].
  rewrite captureBody_page.
  destruct (restoreStyles_document c
              (getPropertyValue (element c p) "overflow")
              (getPropertyValue (element c p) "scrollbar-width")
              (getPropertyValue (element c p) "--webkit-scrollbar-display")
              Released
              (guarded c (default true
                 (vo_hideScrollbars (default emptyViewportOptions options)))
                 p)) as [-> _].
  unfold hidesScrollbars, optionsOf, guarded, when.
  destruct (default true _); [|reflexivity].
  rewrite hideScrollbarsOf_run. cbv zeta.
  by destruct (getElementById STYLE_ID p).
Qed.

(** *** What holds across any sequence of calls *)




Lemma runCall_rest k p :
  body (runCall k p) = body p
  /\ incl (objectURLs (runCall k p)) (objectURLs p).
Proof.
  destruct k as [el o|el o|el o|el o|u f|b f|c0 o|c0]; cbn [runCall].
  - destruct el; split; (reflexivity || apply incl_refl).
  - destruct el; split; (reflexivity || apply incl_refl).
  - destruct el; split; (reflexivity || apply incl_refl).
  - destruct el; split; (reflexivity || apply incl_refl).
  - destruct (downloadImage_document u f Idle p) as (_ & -> & ->).
    split; [reflexivity | apply incl_refl].
  - destruct b as [b|]; [|split; [reflexivity | apply incl_refl]].
    destruct (truthy f) eqn:Ht.
    + rewrite downloadBlob_run by exact Ht. cbv zeta. cbn [page].
      cbn [body objectURLs revokeObjectURL removeBody appendBody
           createObjectURL snd].
      split; [apply removeChild_last|].
      intros x Hx. apply List.filter_In in Hx as [Hin Hneq].
      apply in_app_or in Hin as [Hin|[<-|[]]]; [exact Hin|].
      cbn [fst] in Hneq. by rewrite String.eqb_refl in Hneq.
    + unfold downloadBlob. rewrite Ht.
      split; [reflexivity | apply incl_refl].
  - destruct c0 as [c0|]; [|split; [reflexivity | apply incl_refl]].
    destruct (captureViewport_keeps (fun q => restAs p q) c0 o Idle p)
      as [(Hb & Ho & _) _]; try done.
    rewrite Hb, Ho. split; [reflexivity | apply incl_refl].
  - destruct c0; split; (reflexivity || apply incl_refl).
Qed.

(** X15: the library leaves nothing behind in the document body nor in the
    registry of object URLs.  After any sequence of calls of the exported
    functions, the body has the children it had, in the same order, and
    every object URL still registered was registered before. *)
Theorem library_leaves_body_and_urls ks p :
  body (runCalls ks p) = body p
  /\ incl (objectURLs (runCalls ks p)) (objectURLs p).
Proof.
  revert p. induction ks as [|k ks IH]; intros p.
  - split; [reflexivity | apply incl_refl].
  - change (runCalls (k :: ks) p) with (runCalls ks (runCall k p)).
    destruct (IH (runCall k p)) as [Hb Ho].
    destruct (runCall_rest k p) as [Hb' Ho'].
    split; [by rewrite Hb, Hb' | by eapply incl_tran].
Qed.

End Exporter.

Arguments Outcome {NodeFilter Blob Surface} A.
Arguments mkOutcome {NodeFilter Blob Surface A}.
Arguments value {NodeFilter Blob Surface A}.
Arguments page {NodeFilter Blob Surface A}.
Arguments trace {NodeFilter Blob Surface A}.

(** ** The claims on sample inputs *)

Lemma captureViewport_restores_suppression_witness :
  sameSuppressionState
    (element 0 (@pageOf unit samplePane))
    (element 0
       (page (@captureViewport unit unit unit (sampleToCanvas tt)
                sampleGetContext2d sampleToDataURL (Some 0%nat) None Idle
                (pageOf samplePane)))).
Proof.
  refine (proj2 (proj2 (proj2 (proj2
    (@captureViewport_restores_suppression unit unit unit (sampleToCanvas tt)
       sampleGetContext2d sampleToDataURL 0%nat None Idle
       (pageOf samplePane))))) _).
  vm_compute. reflexivity.
Defined.

(** C1 as stated fails on a container that already carries the marker
    class: the call removes the class, so the class list is not the one of
    before the call. *)
Lemma marked_container_not_restored :
  ~ sameSuppressionState
      (element 0 (@pageOf unit markedPane))
      (element 0
         (page (@captureViewport unit unit unit (sampleToCanvas tt)
                  sampleGetContext2d sampleToDataURL (Some 0%nat) None Idle
                  (pageOf markedPane)))).
Proof.
  intros (_ & _ & H). vm_compute in H. discriminate H.
Qed.

Lemma captureViewport_failure_releases_once_witness :
  let r := @captureViewport unit unit unit failingToCanvas
             sampleGetContext2d sampleToDataURL (Some 0%nat) None Idle
             (pageOf samplePane) in
  value r = inl "SecurityError: tainted canvas"
  /\ eventsAt Released (trace r) = releaseEvents 0 samplePane
  /\ classRemovals (events (trace r)) = 1%nat
  /\ exists t, events (trace r) = t ++ releaseEvents 0 samplePane.
Proof.
  apply (@captureViewport_failure_releases_once unit unit unit failingToCanvas
           sampleGetContext2d sampleToDataURL 0%nat None Idle
           (pageOf samplePane) "SecurityError: tainted canvas").
  apply RasterizationFails. reflexivity.
Defined.


(** C4 as stated fails: in a capture with the default options the
    scrollbars are hidden before the container is measured. *)
Lemma measurement_not_before_guard :
  nondecreasing specRank
    (stages (trace (@captureViewport unit unit unit (sampleToCanvas tt)
                      sampleGetContext2d sampleToDataURL (Some 0%nat) None
                      Idle (pageOf samplePane))))
  = false.
Proof. vm_compute. reflexivity. Qed.


Lemma downloadBlob_revokes_url_witness :
  let url := "blob:3f2a" in
  let link := AnchorNode "export.png" url "none" in
  let r := @downloadBlob unit unit unit sampleUuid (Some tt) "export.png" Idle
             (pageOf samplePane) in
  value r = inr tt
  /\ url <> ""
  /\ events (trace r)
     = [EvCreateObjectURL tt url; EvAppendBody link; EvClick link;
        EvRemoveBody link; EvRevokeObjectURL url]
  /\ ~ In url (map fst (objectURLs (page r)))
  /\ objectURLs (page r)
     = List.filter (fun e => negb (String.eqb url (fst e)))
         (objectURLs (@pageOf unit samplePane))
  /\ head (page r) = head (@pageOf unit samplePane)
  /\ body (page r) = body (@pageOf unit samplePane).
Proof.
  apply (@downloadBlob_revokes_url unit unit unit sampleUuid tt "export.png"
           Idle (pageOf samplePane)).
  vm_compute. discriminate.
Defined.

(** ** The further properties on sample inputs *)

Lemma download_preconditions_witness :
  @downloadImage unit unit unit "data:image/png;base64,AAAA" "" Idle
    (pageOf samplePane)
  = mkOutcome (inl "Filename is required for download") (pageOf samplePane) [].
Proof.
  refine (proj1 (proj2 (@download_preconditions unit unit unit sampleUuid))
            "data:image/png;base64,AAAA" Idle (pageOf samplePane) _).
  vm_compute. discriminate.
Defined.

Lemma downloadImage_leaves_page_witness :
  let link := AnchorNode "export.png" "data:image/png;base64,AAAA" "none" in
  let r := @downloadImage unit unit unit "data:image/png;base64,AAAA"
             "export.png" Idle (pageOf samplePane) in
  value r = inr tt
  /\ page r = pageOf samplePane
  /\ events (trace r) = [EvAppendBody link; EvClick link; EvRemoveBody link]
  /\ map (fun en => body (after en)) (trace r) = [[link]; [link]; []].
Proof.
  apply (@downloadImage_leaves_page unit unit unit
           "data:image/png;base64,AAAA" "export.png" Idle (pageOf samplePane)).
  - vm_compute. discriminate.
  - vm_compute. discriminate.
Defined.

Lemma captureViewport_encodes_full_canvas_witness :
  let r := @captureViewport unit unit unit (sampleToCanvas tt)
             sampleGetContext2d sampleToDataURL (Some 0%nat) None Idle
             (pageOf samplePane) in
  eventsAt Cropping (trace r) = []
  /\ eventsAt Encoding (trace r)
     = [EvToDataURL (RenderedCanvas tt) "image/png" None]
  /\ value r = inr "data:image/png".
Proof.
  exact (@captureViewport_encodes_full_canvas unit unit unit
           (sampleToCanvas tt) sampleGetContext2d sampleToDataURL 0%nat None
           (RenderedCanvas tt) Idle (pageOf samplePane) eq_refl eq_refl).
Defined.

Lemma rasterization_failure_skips_the_rest_witness :
  let tr := trace (@captureViewport unit unit unit failingToCanvas
                     sampleGetContext2d sampleToDataURL (Some 0%nat) None
                     Idle (pageOf samplePane)) in
  eventsAt Cropping tr = []
  /\ eventsAt Encoding tr = []
  /\ drawCalls (events tr) = 0%nat.
Proof.
  exact (@rasterization_failure_skips_the_rest unit unit unit failingToCanvas
           sampleGetContext2d sampleToDataURL 0%nat None
           "SecurityError: tainted canvas" Idle (pageOf samplePane) eq_refl).
Defined.

Lemma context_failure_skips_the_rest_witness :
  let r := @captureViewport unit unit unit (sampleToCanvas tt) noContext2d
             sampleToDataURL (Some 0%nat) (Some regionAt2) Idle
             (pageOf samplePane) in
  value r = inl "Failed to get canvas context"
  /\ eventsAt Cropping (trace r)
     = [EvCreateCanvas; EvSetCanvasWidth 800%Q; EvSetCanvasHeight 600%Q;
        EvGetContext false]
  /\ eventsAt Encoding (trace r) = []
  /\ drawCalls (events (trace r)) = 0%nat.
Proof.
  exact (@context_failure_skips_the_rest unit unit unit (sampleToCanvas tt)
           noContext2d sampleToDataURL 0%nat (Some regionAt2)
           (RenderedCanvas tt) (mkRegion 100 50 400 300) Idle
           (pageOf samplePane) eq_refl eq_refl eq_refl).
Defined.

Lemma captureViewport_frame_witness :
  let p := @mkPage unit {[ 0%nat := samplePane; 1%nat := markedPane ]}
             [] [OtherNode "toolbar"] [] 0 in
  let r := @captureViewport unit unit unit (sampleToCanvas tt)
             sampleGetContext2d sampleToDataURL (Some 0%nat) None Idle p in
  Forall (fun en => element 1 (after en) = element 1 p
                    /\ body (after en) = body p
                    /\ objectURLs (after en) = objectURLs p)
         (trace r)
  /\ element 1 (page r) = element 1 p
  /\ body (page r) = body p
  /\ objectURLs (page r) = objectURLs p.
Proof.
  apply (@captureViewport_frame unit unit unit (sampleToCanvas tt)
           sampleGetContext2d sampleToDataURL 0%nat 1%nat None Idle).
  vm_compute. discriminate.
Defined.

Lemma rasterization_sees_hidden_scrollbars_witness :
  let r := @captureViewport unit unit unit (sampleToCanvas tt)
             sampleGetContext2d sampleToDataURL (Some 0%nat) None Idle
             (pageOf samplePane) in
  exists p1,
    pagesAt Measuring (trace r) = [p1]
    /\ pagesAt Rasterizing (trace r) = [p1]
    /\ getPropertyValue (element 0 p1) "scrollbar-width" = "none"
    /\ contains MARKER_CLASS (classList (element 0 p1)) = true
    /\ exists n, getElementById STYLE_ID p1 = Some n.
Proof.
  apply (@rasterization_sees_hidden_scrollbars unit unit unit
           (sampleToCanvas tt) sampleGetContext2d sampleToDataURL 0%nat None
           Idle (pageOf samplePane)).
  reflexivity.
Defined.

